(** * AB Cover rating engine: cleaning and rating pipeline

    A shallow embedding of the deterministic part of the repository:

    - [agents/data_cleaning_agent.py]      (module [DataCleaningAgent])
    - [agents/data_cleaning_agent_llm.py]  (module [DataCleaningAgentLLM])
    - [agents/rating_engine_agent.py]      (module [RatingEngineAgent])
    - [agents/rating_engine_agent_llm.py]  (module [RatingEngineAgentLLM])
    - [agents/data_selection_agent.py]     (module [DataSelectionAgent])
    - [agents/orchestrator_langgraph.py]   (module [LangGraphOrchestrator],
      the cleaning node)

    Conventions of the embedding.

    - A pandas [DataFrame] is its list of column labels together with its
      rows; a row is a finite map from column label to cell.  The row index
      is the default one (unique labels), so a boolean mask selects rows
      one by one and [df[mask]] is a [filter].
    - A cell is [NaN] (also standing for [None] and [NaT]), a string, a
      number or a timestamp.  Numbers are exact rationals ([Q]): the
      theorems are about the formulas of the code, not about the rounding
      of IEEE doubles.  Equalities between computed amounts are therefore
      stated with [==] ([Qeq]).
    - What the code obtains from the language model (the suggested rules)
      is an argument of the functions, as are the two pandas coercions
      whose grammar lives in the library ([pd.to_numeric] on a non-numeric
      cell and [pd.to_datetime] on a non-timestamp cell). *)

From Stdlib Require Import Ascii String OrdersEx Sorted QArith Qminmax Lqa Lia.
From stdpp Require Import gmap strings list.

Open Scope string_scope.
Open Scope list_scope.
Open Scope Z_scope.

(** ** Python strings *)

Module Py.

Definition code (c : ascii) : Z := Z.of_N (N_of_ascii c).

(** [str.isspace] on the ASCII range: tab to carriage return, the four
    separators 0x1c-0x1f and the blank. *)
Definition is_space (c : ascii) : bool :=
  ((9 <=? code c) && (code c <=? 13)) ||
  ((28 <=? code c) && (code c <=? 32)).

Fixpoint lstrip (s : string) : string :=
  match s with
  | String c s' => if is_space c then lstrip s' else s
  | EmptyString => EmptyString
  end.

(** [rstrip]: a character is dropped when it is a blank and everything
    after it has been dropped too. *)
Fixpoint rstrip (s : string) : string :=
  match s with
  | EmptyString => EmptyString
  | String c s' =>
      match rstrip s' with
      | EmptyString => if is_space c then EmptyString else String c EmptyString
      | t => String c t
      end
  end.

(** [s.strip()] *)
Definition strip (s : string) : string := rstrip (lstrip s).

(** [s.split(sep)] for a one-character separator: never empty, one more
    part than there are separators. *)
Fixpoint split (sep : ascii) (s : string) : list string :=
  match s with
  | EmptyString => [EmptyString]
  | String c s' =>
      if Ascii.eqb c sep then EmptyString :: split sep s'
      else match split sep s' with
           | p :: ps => String c p :: ps
           | [] => [String c EmptyString]
           end
  end.

Definition digit (c : ascii) : option Z :=
  if (48 <=? code c) && (code c <=? 57) then Some (code c - 48) else None.

(** The digits of an integer literal: at least one digit, single
    underscores allowed between digits only.  [seen] tells that the
    previous character was a digit. *)
Fixpoint digits (s : string) (acc : Z) (seen : bool) : option Z :=
  match s with
  | EmptyString => if seen then Some acc else None
  | String c s' =>
      if Ascii.eqb c "_"%char then
        if seen then digits s' acc false else None
      else match digit c with
           | Some d => digits s' (10 * acc + d) true
           | None => None
           end
  end.

(** [int(s)] in base ten; [None] stands for [ValueError]. *)
Definition int (s : string) : option Z :=
  match strip s with
  | String "+"%char s' => digits s' 0 false
  | String "-"%char s' => Z.opp <$> digits s' 0 false
  | s' => digits s' 0 false
  end.

(** [datetime.MINYEAR] and [datetime.MAXYEAR] *)
Definition MINYEAR : Z := 1.
Definition MAXYEAR : Z := 9999.

End Py.

(** ** Timestamps, cells, rows and tables *)

(** A [pd.Timestamp]: a calendar date and the time of day in nanoseconds.
    Timestamps are compared as instants, that is lexicographically. *)
Record Timestamp := mkTimestamp {
  ts_year : Z;
  ts_month : Z;
  ts_day : Z;
  ts_time : Z
}.

Definition ts_key (t : Timestamp) : list Z :=
  [ts_year t; ts_month t; ts_day t; ts_time t].

Fixpoint lex_leb (a b : list Z) : bool :=
  match a, b with
  | x :: a', y :: b' => (x <? y) || ((x =? y) && lex_leb a' b')
  | [], _ => true
  | _ :: _, [] => false
  end.

(** [a <= b] on timestamps *)
Definition ts_leb (a b : Timestamp) : bool := lex_leb (ts_key a) (ts_key b).

(** [pd.Timestamp(year=y, month=m, day=d)].  The keyword form goes through
    [datetime(y, m, d)], which raises [ValueError] for a year outside
    [MINYEAR..MAXYEAR]; the code only builds July 1 and June 30, which
    exist in every year. *)
Definition pd_Timestamp (y m d : Z) : option Timestamp :=
  if (Py.MINYEAR <=? y) && (y <=? Py.MAXYEAR)
  then Some (mkTimestamp y m d 0) else None.

Inductive cell :=
| NaN
| Str (s : string)
| Num (q : Q)
| Ts (t : Timestamp).

Abbreviation row := (gmap string cell).

Record DataFrame := mkDataFrame {
  columns : list string;
  rows : list row
}.

(** [pd.isna(row.get(col))]: a missing label gives [None], which is NA. *)
Definition isna (c : option cell) : bool :=
  match c with
  | None | Some NaN => true
  | Some _ => false
  end.

(** [col in df.columns] *)
Definition has_column (df : DataFrame) (col : string) : bool :=
  bool_decide (col ∈ columns df).

(** [df[col] == s], one row of it *)
Definition cell_is (s : string) (c : option cell) : bool :=
  match c with
  | Some (Str s') => String.eqb s' s
  | _ => false
  end.

(** [df[col].isin(values)], one row of it *)
Definition cell_isin (values : list string) (c : option cell) : bool :=
  match c with
  | Some (Str s') => bool_decide (s' ∈ values)
  | _ => false
  end.

(** [df[mask].copy()] *)
Definition select (mask : row -> bool) (df : DataFrame) : DataFrame :=
  mkDataFrame (columns df) (List.filter mask (rows df)).

(** [df[col] = f(row)]: an existing column keeps its place, a new one goes
    last. *)
Definition assign (col : string) (f : row -> cell) (df : DataFrame) : DataFrame :=
  mkDataFrame
    (if has_column df col then columns df else columns df ++ [col])
    ((fun r => <[col := f r]> r) <$> rows df).

(** [len(df)] *)
Definition len (df : DataFrame) : Z := Z.of_nat (length (rows df)).

Definition Qltb (x y : Q) : bool := negb (Qle_bool y x).

(** A Python call either returns or raises; [Raised] carries the name of
    the exception class. *)
Inductive result (A : Type) :=
| Returned (a : A)
| Raised (exception : string).
Arguments Returned {A} a.
Arguments Raised {A} exception.

Definition bind {A B} (m : result A) (k : A -> result B) : result B :=
  match m with
  | Returned a => k a
  | Raised e => Raised e
  end.

(** ** agents/data_cleaning_agent.py *)

Module DataCleaningAgent.

(** [self.teacher_types] *)
Definition teacher_types : list string :=
  ["Teacher"; "Teacher Music"; "Teacher SpecEd"].

Definition apply_rule1 (df : DataFrame) : DataFrame :=
  if has_column df "Filled" && has_column df "Needs Substitute" then
    select (fun r => negb (cell_is "Unfilled" (r !! "Filled") &&
                           cell_is "NO" (r !! "Needs Substitute"))) df
  else df.

Definition apply_rule2 (df : DataFrame) : DataFrame :=
  if has_column df "Employee Type" then
    select (fun r => cell_isin teacher_types (r !! "Employee Type")) df
  else df.

Section Days.

(** [pd.to_numeric(c, errors='coerce')] on a cell that is neither a
    number nor NA; [None] is the coerced NaN. *)
Variable coerce : cell -> option Q.

Definition to_numeric (c : cell) : option Q :=
  match c with
  | Num q => Some q
  | NaN => None
  | _ => coerce c
  end.

(** The inner function [calculate_days(row)].  [str()] of a number or
    of a timestamp is none of the four labels, so only a string cell
    reaches the first three branches. *)
Definition calculate_days (r : row) : Q :=
  if isna (r !! "Absence Type") then 0
  else match r !! "Absence Type" with
       | Some (Str s) =>
           let abs_type := Py.strip s in
           if String.eqb abs_type "Full Day" then 1
           else if bool_decide (abs_type ∈ ["AM Half Day"; "PM Half Day"])
           then 0.5
           else if String.eqb abs_type "Custom Duration" then
             match r !! "Duration" with
             | Some c =>
                 match to_numeric c with
                 | Some hours => hours / 7.5
                 | None => 0
                 end
             | None => 0
             end
           else 0
       | _ => 0
       end.

Definition calculate_absence_days (df : DataFrame) : DataFrame :=
  if has_column df "Absence_Days" then df
  else assign "Absence_Days" (fun r => Num (calculate_days r)) df.

Record Stats := mkStats {
  original_rows : Z;
  after_rule1 : Z;
  after_rule2 : Z;
  final_rows : Z;
  rows_removed : Z
}.

Definition process (df : DataFrame) : DataFrame * Stats :=
  let original_rows := len df in
  let df1 := apply_rule1 df in
  let df2 := apply_rule2 df1 in
  let df3 := calculate_absence_days df2 in
  (df3, mkStats original_rows (len df1) (len df2) (len df3)
                (original_rows - len df3)).

End Days.

End DataCleaningAgent.

(** ** agents/data_cleaning_agent_llm.py *)

Module DataCleaningAgentLLM.

(** The entries appended to the lists of the validation report; each
    constructor stands for the formatted message of the code. *)
Inductive issue :=
| MissingRequiredColumns (missing_columns : list string)
| RemovedEmptyRows (n : Z)
| InvalidDates (n : Z)
| NegativeDurations (n : Z)
| InvalidSchoolYears (n : Z)
| MissingEmployeeIdentifiers (n : Z).

Record ValidationReport := mkReport {
  format_issues : list issue;
  rows_removed : Z;
  columns_checked : list string;
  data_type_issues : list issue;
  invalid_values : list issue;
  final_rows : Z
}.

(** The part of the language model's answer that [process] reads
    ([suggested_rules]); a key may be absent. *)
Record SuggestedRules := mkRules {
  remove_unfilled_no_substitute : option bool;
  employee_types_to_keep : option (list string);
  validate_school_year_dates : option bool
}.

(** The keys of [blackboard_context] that [process] reads. *)
Record Context := mkContext {
  user_already_filtered_employee_types : bool;
  user_selected_employee_types : option (list string)
}.

Record Stats := mkStats {
  original_rows : Z;
  after_validation : Z;
  after_rule1 : Z;
  after_rule2 : Z;
  after_rule3 : Z;
  stats_final_rows : Z;
  stats_rows_removed : Z;
  validation_report : ValidationReport;
  rule2_applied : bool
}.

Definition required_columns : list string :=
  ["Date"; "School Year"; "Employee Identifier"; "Absence Type"].

(** [len(x)] as a Python int *)
Definition count {A} (p : A -> bool) (l : list A) : Z :=
  Z.of_nat (length (List.filter p l)).

(** [len(school_year) == 9 and school_year[4] == '-'] on [str()] of the
    cell; [str()] of a number or of a timestamp never has this shape. *)
Definition school_year_shape (c : cell) : bool :=
  match c with
  | Str s => (Z.of_nat (String.length s) =? 9) &&
             match String.get 4 s with
             | Some ch => Ascii.eqb ch "-"%char
             | None => false
             end
  | _ => false
  end.

Definition apply_rule1 (df : DataFrame) (should_apply : bool) : DataFrame :=
  if negb should_apply then df
  else if has_column df "Filled" && has_column df "Needs Substitute" then
    select (fun r => negb (cell_is "Unfilled" (r !! "Filled") &&
                           cell_is "NO" (r !! "Needs Substitute"))) df
  else df.

(** An empty list is falsy. *)
Definition truthy {A} (l : list A) : bool :=
  match l with [] => false | _ => true end.

Definition apply_rule2 (df : DataFrame) (employee_types_to_keep : list string)
  : DataFrame :=
  if has_column df "Employee Type" && truthy employee_types_to_keep then
    select (fun r => cell_isin employee_types_to_keep (r !! "Employee Type")) df
  else df.

(** The inner function [get_school_year_range] on the text of the school
    year; [None] is the pair [(None, None)], returned when the text does
    not split into two parts or when [int] or [pd.Timestamp] raises
    [ValueError]. *)
Definition get_school_year_range (school_year_str : string)
  : option (Timestamp * Timestamp) :=
  match Py.split "-"%char school_year_str with
  | [p0; p1] =>
      start_year ← Py.int p0;
      end_year ← Py.int p1;
      start_date ← pd_Timestamp start_year 7 1;
      end_date ← pd_Timestamp end_year 6 30;
      Some (start_date, end_date)
  | _ => None
  end.

(** [get_school_year_range] on a cell.  [str()] of a number has a hyphen
    only as a sign or inside an exponent, and [str()] of a timestamp has
    two of them, so neither gives two integer parts. *)
Definition school_year_range (c : cell) : option (Timestamp * Timestamp) :=
  match c with
  | Str s => get_school_year_range s
  | _ => None
  end.

Section Coercions.

(** [pd.to_numeric(c, errors='coerce')] on a cell that is neither a
    number nor NA; [None] is the coerced NaN. *)
Variable coerce : cell -> option Q.

(** [pd.to_datetime(c)] on a cell that is neither a timestamp nor NA;
    [None] is a failed parse: NaT under [errors='coerce'], and an
    exception or a NaT otherwise. *)
Variable to_datetime : cell -> option Timestamp.

Definition to_numeric (c : cell) : option Q :=
  match c with
  | Num q => Some q
  | NaN => None
  | _ => coerce c
  end.

Definition as_timestamp (c : cell) : option Timestamp :=
  match c with
  | Ts t => Some t
  | NaN => None
  | _ => to_datetime c
  end.

(** One row of [df[col].apply(f)] where a missing label reads as NA. *)
Definition coerced {A} (f : cell -> option A) (mk : A -> cell)
    (col : string) (r : row) : cell :=
  match r !! col with
  | Some c => match f c with Some a => mk a | None => NaN end
  | None => NaN
  end.

Definition validate_data_format (df : DataFrame)
  : result (DataFrame * ValidationReport) :=
  let original_rows := len df in
  (* required columns *)
  let missing_columns :=
    List.filter (fun col => negb (has_column df col)) required_columns in
  let format_issues :=
    if truthy missing_columns then [MissingRequiredColumns missing_columns]
    else [] in
  (* completely empty rows; [df.empty] holds when an axis has length 0 *)
  let empty := negb (truthy (rows df)) || negb (truthy (columns df)) in
  let df1 :=
    if empty then df
    else select (fun r => negb (forallb (fun col => isna (r !! col))
                                        (columns df))) df in
  let format_issues :=
    if negb empty && negb (original_rows =? len df1)
    then format_issues ++ [RemovedEmptyRows (original_rows - len df1)]
    else format_issues in
  (* Date *)
  let has_date := has_column df1 "Date" in
  let columns_checked := if has_date then ["Date"] else [] in
  let dated := if has_date then assign "Date" (coerced as_timestamp Ts "Date") df1
               else df1 in
  let invalid_dates :=
    if has_date then count (fun r => isna (r !! "Date")) (rows dated) else 0 in
  let data_type_issues :=
    if 0 <? invalid_dates then [InvalidDates invalid_dates] else [] in
  let df2 :=
    if 0 <? invalid_dates then select (fun r => negb (isna (r !! "Date"))) dated
    else dated in
  (* Duration *)
  let has_duration := has_column df2 "Duration" in
  let columns_checked :=
    if has_duration then columns_checked ++ ["Duration"] else columns_checked in
  let df3 :=
    if has_duration then assign "Duration" (coerced to_numeric Num "Duration") df2
    else df2 in
  let negative_durations :=
    if has_duration then
      count (fun r => match r !! "Duration" with
                      | Some (Num q) => Qltb q 0
                      | _ => false
                      end) (rows df3)
    else 0 in
  let invalid_values :=
    if 0 <? negative_durations then [NegativeDurations negative_durations]
    else [] in
  (* School Year *)
  let has_year := has_column df3 "School Year" in
  let columns_checked :=
    if has_year then columns_checked ++ ["School Year"] else columns_checked in
  let invalid_school_years :=
    if has_year then
      count (fun r => match r !! "School Year" with
                      | Some c => negb (isna (Some c)) && negb (school_year_shape c)
                      | None => false
                      end) (rows df3)
    else 0 in
  let format_issues :=
    if 0 <? invalid_school_years
    then format_issues ++ [InvalidSchoolYears invalid_school_years]
    else format_issues in
  (* Employee Identifier: reported, not dropped *)
  let has_id := has_column df3 "Employee Identifier" in
  let columns_checked :=
    if has_id then columns_checked ++ ["Employee Identifier"]
    else columns_checked in
  let empty_identifiers :=
    if has_id then count (fun r => isna (r !! "Employee Identifier")) (rows df3)
    else 0 in
  let format_issues :=
    if 0 <? empty_identifiers
    then format_issues ++ [MissingEmployeeIdentifiers empty_identifiers]
    else format_issues in
  Returned (df3, mkReport format_issues (original_rows - len df3) columns_checked
                          data_type_issues invalid_values (len df3)).

(** The body of the loop of [apply_rule3]: the entry of [valid_mask]
    for one row. *)
Definition rule3_valid (r : row) : bool :=
  let school_year := r !! "School Year" in
  let date := r !! "Date" in
  if isna school_year || isna date then true
  else match school_year ≫= school_year_range with
       | None => true
       | Some (start_date, end_date) =>
           match date ≫= as_timestamp with
           | Some d => ts_leb start_date d && ts_leb d end_date
           | None => false
           end
       end.

Definition apply_rule3 (df : DataFrame) (should_apply : bool) : DataFrame :=
  if negb should_apply then df
  else if negb (has_column df "School Year") || negb (has_column df "Date")
  then df
  else select rule3_valid df.

(** The inner function [calculate_days(row)]; see the remark on
    [DataCleaningAgent.calculate_days]. *)
Definition calculate_days (r : row) : Q :=
  if isna (r !! "Absence Type") then 0
  else match r !! "Absence Type" with
       | Some (Str s) =>
           let abs_type := Py.strip s in
           if String.eqb abs_type "Full Day" then 1
           else if bool_decide (abs_type ∈ ["AM Half Day"; "PM Half Day"])
           then 0.5
           else if String.eqb abs_type "Custom Duration" then
             match r !! "Duration" with
             | Some c =>
                 match to_numeric c with
                 | Some hours => hours / 7.5
                 | None => 0
                 end
             | None => 0
             end
           else 0
       | _ => 0
       end.

Definition calculate_absence_days (df : DataFrame) : DataFrame :=
  if negb (has_column df "Absence Type") then df
  else assign "Absence_Days" (fun r => Num (calculate_days r)) df.

(** [process], given the answer of the language model. *)
Definition process (suggested_rules : SuggestedRules)
    (blackboard_context : option Context) (df : DataFrame)
  : result (DataFrame * Stats) :=
  let original_rows := len df in
  bind (validate_data_format df) (fun '(df0, report) =>
  (* Rule 1 *)
  let should_remove_unfilled :=
    default true (remove_unfilled_no_substitute suggested_rules) in
  let df1 := apply_rule1 df0 should_remove_unfilled in
  (* Rule 2, unless the user filtered the employee types already *)
  let user_already_filtered :=
    match blackboard_context with
    | Some ctx => user_already_filtered_employee_types ctx
    | None => false
    end in
  let user_selected_types :=
    blackboard_context ≫= user_selected_employee_types in
  let skip_rule2 :=
    user_already_filtered && truthy (default [] user_selected_types) in
  let employee_types :=
    default ["Teacher"; "Teacher Music"; "Teacher SpecEd"]
            (employee_types_to_keep suggested_rules) in
  let df2 := if skip_rule2 then df1 else apply_rule2 df1 employee_types in
  (* Rule 3, forced when both columns are there *)
  let should_validate_dates :=
    if has_column df2 "School Year" && has_column df2 "Date" then true
    else default true (validate_school_year_dates suggested_rules) in
  let df3 := apply_rule3 df2 should_validate_dates in
  let df4 := calculate_absence_days df3 in
  Returned (df4, mkStats original_rows (len df0) (len df1) (len df2) (len df3)
                         (len df4) (original_rows - len df4) report
                         (negb skip_rule2))).

End Coercions.

End DataCleaningAgentLLM.

(** ** The table of absence days per school year and employee *)

(** One row of [teacher_days]: the columns ['School Year'],
    ['Employee Identifier'] and ['Total_Days']. *)
Record TeacherDays := mkTeacherDays {
  school_year : string;
  employee_identifier : string;
  total_days : Q
}.

(** A pandas [Series] of numbers indexed by employee. *)
Abbreviation Series := (list (string * Q)).

(** One more value for the group of [k]; the groups are kept in the
    order of their keys, as [groupby] sorts them. *)
Fixpoint add_to_group (k : string) (v : Q) (s : Series) : Series :=
  match s with
  | [] => [(k, v)]
  | (k', v') :: s' =>
      match String_as_OT.compare k k' with
      | Eq => (k', (v' + v)%Q) :: s'
      | Lt => (k, v) :: s
      | Gt => (k', v') :: add_to_group k v s'
      end
  end.

(** [teacher_days.groupby('Employee Identifier')['Total_Days'].sum()] *)
Definition groupby_sum (teacher_days : list TeacherDays) : Series :=
  fold_left (fun s r => add_to_group (employee_identifier r) (total_days r) s)
            teacher_days [].

(** [s[mask]] for a mask computed from the values *)
Definition where_ (mask : Q -> bool) (s : Series) : Series :=
  List.filter (fun kv => mask (snd kv)) s.

(** [s.sum()] *)
Definition sum (s : Series) : Q :=
  fold_right (fun kv acc => (snd kv + acc)%Q) 0%Q s.

(** [len(s)] *)
Definition size (s : Series) : Z := Z.of_nat (length s).

(** ** agents/rating_engine_agent.py *)

Module RatingEngineAgent.

Record CoverageMetrics := mkCoverageMetrics {
  num_staff_cc_range : Z;
  total_cc_days : Q;
  replacement_cost_cc : Q;
  num_high_claimant : Z;
  excess_days : Q;
  high_claimant_cost : Q;
  deductible : Z;
  cc_days : Z;
  cc_maximum : Z;
  replacement_cost : Q
}.

Definition calculate_coverage_metrics (teacher_days : list TeacherDays)
    (deductible cc_days : Z) (replacement_cost : Q) : CoverageMetrics :=
  let total_days_per_teacher := groupby_sum teacher_days in
  let cc_maximum := deductible + cc_days in
  let staff_in_cc_range :=
    where_ (fun d => Qltb (inject_Z deductible) d &&
                     Qle_bool d (inject_Z cc_maximum))
           total_days_per_teacher in
  let num_staff_cc_range := size staff_in_cc_range in
  let total_cc_days := sum staff_in_cc_range in
  let replacement_cost_cc := (replacement_cost * total_cc_days)%Q in
  let high_claimant_staff :=
    where_ (fun d => Qltb (inject_Z cc_maximum) d) total_days_per_teacher in
  let num_high_claimant := size high_claimant_staff in
  let excess_days :=
    sum ((fun kv => (fst kv, (snd kv - inject_Z cc_maximum)%Q))
           <$> high_claimant_staff) in
  let high_claimant_cost := (replacement_cost * excess_days)%Q in
  mkCoverageMetrics num_staff_cc_range total_cc_days replacement_cost_cc
                    num_high_claimant excess_days high_claimant_cost
                    deductible cc_days cc_maximum replacement_cost.



End RatingEngineAgent.

(** ** agents/rating_engine_agent_llm.py *)

Module RatingEngineAgentLLM.

(** [calculation_approach] *)
Record Approach := mkApproach {
  cc_days_calculation : string;
  excess_days_calculation : string
}.

(** An entry of [cc_range_details] or of [high_claimant_details] *)
Record Detail := mkDetail {
  employee_id : string;
  detail_total_days : Q;
  counted_days : Q
}.

(** The result dictionary, without the rollups per school year, which
    are computed from the cleaned table and feed no other entry. *)
Record Results := mkResults {
  num_staff_cc_range : Z;
  total_cc_days : Q;
  replacement_cost_cc : Q;
  cc_range_details : list Detail;
  num_high_claimant : Z;
  excess_days : Q;
  high_claimant_cost : Q;
  high_claimant_details : list Detail;
  ark_commission : Q;
  abcover_commission : Q;
  total_premium : Q;
  deductible : Z;
  cc_days : Z;
  cc_maximum : Z;
  replacement_cost : Q;
  calculation_approach : Approach;
  total_teachers : Z;
  below_deductible_count : Z
}.

(** The loop over [staff_in_cc_range.items()]: the running total and the
    details collected so far. *)
Definition cc_range_step (deductible cc_maximum : Z)
    (acc : Q * list Detail) (item : string * Q) : Q * list Detail :=
  let '(total_cc_days, cc_range_details) := acc in
  let '(emp_id, days) := item in
  if Qltb (inject_Z deductible) days then
    let days_in_range :=
      Qmin (days - inject_Z deductible) (inject_Z (cc_maximum - deductible)) in
    ((total_cc_days + days_in_range)%Q,
     cc_range_details ++ [mkDetail emp_id days days_in_range])
  else acc.

Definition calculate_with_reasoning (teacher_days : list TeacherDays)
    (deductible cc_days : Z)
    (replacement_cost ark_commission_rate abcover_commission_rate : Q)
    (calculation_approach : option Approach) : Results :=
  (* whatever was recommended, the approach is overwritten *)
  let calculation_approach := mkApproach "range_only" "excess_only" in
  let cc_maximum := deductible + cc_days in
  let total_days_per_teacher := groupby_sum teacher_days in
  let staff_in_cc_range :=
    where_ (fun d => Qltb (inject_Z deductible) d &&
                     Qle_bool d (inject_Z cc_maximum))
           total_days_per_teacher in
  let num_staff_cc_range := size staff_in_cc_range in
  let cc_range_loop :=
    fold_left (cc_range_step deductible cc_maximum) staff_in_cc_range (0%Q, []) in
  let total_cc_days := fst cc_range_loop in
  let cc_range_details := snd cc_range_loop in
  let replacement_cost_cc := (replacement_cost * total_cc_days)%Q in
  let high_claimant_staff :=
    where_ (fun d => Qltb (inject_Z cc_maximum) d) total_days_per_teacher in
  let num_high_claimant := size high_claimant_staff in
  let excess_branch :=
    if String.eqb (excess_days_calculation calculation_approach) "all_days" then
      (sum high_claimant_staff,
       (fun kv => mkDetail (fst kv) (snd kv) (snd kv)) <$> high_claimant_staff)
    else
      (sum ((fun kv => (fst kv, (snd kv - inject_Z cc_maximum)%Q))
              <$> high_claimant_staff),
       (fun kv => mkDetail (fst kv) (snd kv) (snd kv - inject_Z cc_maximum)%Q)
         <$> high_claimant_staff) in
  let excess_days := fst excess_branch in
  let high_claimant_details := snd excess_branch in
  let high_claimant_cost := (replacement_cost * excess_days)%Q in
  let ark_commission := (replacement_cost_cc * ark_commission_rate)%Q in
  let abcover_commission := (replacement_cost_cc * abcover_commission_rate)%Q in
  let total_premium :=
    (replacement_cost_cc + ark_commission + abcover_commission)%Q in
  mkResults num_staff_cc_range total_cc_days replacement_cost_cc cc_range_details
            num_high_claimant excess_days high_claimant_cost high_claimant_details
            ark_commission abcover_commission total_premium
            deductible cc_days cc_maximum replacement_cost calculation_approach
            (size total_days_per_teacher)
            (size (where_ (fun d => Qle_bool d (inject_Z deductible))
                          total_days_per_teacher)).

(** [process]: the approach is left to [calculate_with_reasoning]. *)
Definition process (teacher_days : list TeacherDays) (deductible cc_days : Z)
    (replacement_cost ark_commission_rate abcover_commission_rate : Q)
  : Results :=
  calculate_with_reasoning teacher_days deductible cc_days replacement_cost
    ark_commission_rate abcover_commission_rate None.

End RatingEngineAgentLLM.

(** ** The specification's vocabulary *)

Module Spec.

(** *** Day values (section 4.3) *)

Inductive AbsenceType :=
| FullDay
| AmHalfDay
| PmHalfDay
| CustomDuration
| Other.

(** The absence type a label stands for, blanks around it ignored. *)
Definition absence_type_of_label (label : string) : AbsenceType :=
  let l := Py.strip label in
  if String.eqb l "Full Day" then FullDay
  else if String.eqb l "AM Half Day" then AmHalfDay
  else if String.eqb l "PM Half Day" then PmHalfDay
  else if String.eqb l "Custom Duration" then CustomDuration
  else Other.

(** The absence type of a row; [None] when it is missing. *)
Definition absence_type (r : row) : option AbsenceType :=
  match r !! "Absence Type" with
  | None | Some NaN => None
  | Some (Str label) => Some (absence_type_of_label label)
  | Some _ => Some Other
  end.

(** The duration of a row when it is a valid number. *)
Definition duration_hours (coerce : cell -> option Q) (r : row) : option Q :=
  r !! "Duration" ≫= DataCleaningAgentLLM.to_numeric coerce.

(** The day value as the specification words it: a custom duration
    counts only when it is a valid non-negative number. *)
Definition day_value (t : option AbsenceType) (hours : option Q) : Q :=
  match t with
  | Some FullDay => 1
  | Some AmHalfDay | Some PmHalfDay => 0.5
  | Some CustomDuration =>
      match hours with
      | Some h => if Qle_bool 0 h then h / 7.5 else 0
      | None => 0
      end
  | Some Other | None => 0
  end.

(** The same table without the test on the sign. *)
Definition day_value_any_sign (t : option AbsenceType) (hours : option Q) : Q :=
  match t with
  | Some FullDay => 1
  | Some AmHalfDay | Some PmHalfDay => 0.5
  | Some CustomDuration =>
      match hours with
      | Some h => h / 7.5
      | None => 0
      end
  | Some Other | None => 0
  end.

(** *** Tables that differ only in the day-value column *)

Definition absence_days_column (df : DataFrame) : list (option cell) :=
  (fun r : row => r !! "Absence_Days") <$> rows df.

Definition other_columns (df : DataFrame) : list string :=
  List.filter (fun col => negb (String.eqb col "Absence_Days")) (columns df).

Definition differ_only_in_absence_days (df1 df2 : DataFrame) : Prop :=
  other_columns df1 = other_columns df2 /\
  (delete "Absence_Days" <$> rows df1) = (delete "Absence_Days" <$> rows df2).

(** *** Periods (sections 4.1 and 4.2) *)




Definition july_1 (year : Z) : Timestamp := mkTimestamp year 7 1 0.
Definition june_30 (year : Z) : Timestamp := mkTimestamp year 6 30 0.

(** The two years the code reads in a school-year cell, if it does. *)
Definition period_years (c : option cell) : option (Z * Z) :=
  '(start_date, end_date) ← c ≫= DataCleaningAgentLLM.school_year_range;
  Some (ts_year start_date, ts_year end_date).

Definition valid_year (y : Z) : Prop := Py.MINYEAR <= y <= Py.MAXYEAR.

(** *** Tiers and premium (sections 4.5 and 4.6) *)

(** The distinct employees of a table, and the total days of one. *)
Definition employees (teacher_days : list TeacherDays) : list string :=
  remove_dups (employee_identifier <$> teacher_days).

Fixpoint total_of (e : string) (teacher_days : list TeacherDays) : Q :=
  match teacher_days with
  | [] => 0
  | r :: rest =>
      if String.eqb (employee_identifier r) e
      then total_days r + total_of e rest
      else total_of e rest
  end.

Definition coverage_ceiling (deductible_days coverage_days : Z) : Z :=
  deductible_days + coverage_days.

Definition below_deductible (deductible_days : Z) (d : Q) : bool :=
  Qle_bool d (inject_Z deductible_days).

Definition coverage_range (deductible_days coverage_days : Z) (d : Q) : bool :=
  Qltb (inject_Z deductible_days) d &&
  Qle_bool d (inject_Z (coverage_ceiling deductible_days coverage_days)).

Definition high_claimant (deductible_days coverage_days : Z) (d : Q) : bool :=
  Qltb (inject_Z (coverage_ceiling deductible_days coverage_days)) d.

(** Sum of [f] over a list. *)
Definition Qsum {A} (f : A -> Q) (l : list A) : Q :=
  fold_right (fun x acc => (f x + acc)%Q) 0%Q l.

(** Chargeable days of an employee with [d] total days. *)
Definition chargeable_days (deductible_days coverage_days : Z) (d : Q) : Q :=
  if coverage_range deductible_days coverage_days d
  then Qmin (d - inject_Z deductible_days) (inject_Z coverage_days)
  else 0.

Definition coverage_cost (cost_per_day : Q) (deductible_days coverage_days : Z)
    (teacher_days : list TeacherDays) : Q :=
  cost_per_day *
  Qsum (fun e => chargeable_days deductible_days coverage_days
                   (total_of e teacher_days))
       (employees teacher_days).

(** How many of the employees have a total in a given tier. *)
Definition population (tier : Q -> bool) (teacher_days : list TeacherDays) : Z :=
  Z.of_nat (length (List.filter (fun e => tier (total_of e teacher_days))
                                (employees teacher_days))).

End Spec.

(** ** Sample inputs *)

Module Examples.

(** Coercions that reject everything left to them. *)
Definition coerce_nothing : cell -> option Q := fun _ => None.
Definition parse_no_date : cell -> option Timestamp := fun _ => None.

(** A custom absence of minus seven and a half hours. *)
Definition negative_duration_row : row :=
  {[ "Absence Type" := Str "Custom Duration"; "Duration" := Num (-7.5) ]}.

(** Two tables without an absence type that differ in the day value. *)
Definition hours_as_days : DataFrame :=
  mkDataFrame ["Employee Identifier"; "Absence_Days"]
    [ {[ "Employee Identifier" := Str "E1"; "Absence_Days" := Num 7.5 ]} ].

Definition days_as_days : DataFrame :=
  mkDataFrame ["Employee Identifier"; "Absence_Days"]
    [ {[ "Employee Identifier" := Str "E1"; "Absence_Days" := Num 1 ]} ].

(** The same two with the absence type. *)
Definition typed_hours_as_days : DataFrame :=
  mkDataFrame ["Employee Identifier"; "Absence Type"; "Absence_Days"]
    [ {[ "Employee Identifier" := Str "E1"; "Absence Type" := Str "Full Day";
         "Absence_Days" := Num 7.5 ]} ].

Definition typed_days_as_days : DataFrame :=
  mkDataFrame ["Employee Identifier"; "Absence Type"; "Absence_Days"]
    [ {[ "Employee Identifier" := Str "E1"; "Absence Type" := Str "Full Day";
         "Absence_Days" := Num 1 ]} ].


Definition no_rules : DataCleaningAgentLLM.SuggestedRules :=
  DataCleaningAgentLLM.mkRules None None None.



(** The four employees of the validation scripts. *)
Definition four_teachers : list TeacherDays :=
  [ mkTeacherDays "2020-2021" "Teacher_A" 15;
    mkTeacherDays "2020-2021" "Teacher_B" 50;
    mkTeacherDays "2020-2021" "Teacher_C" 75;
    mkTeacherDays "2020-2021" "Teacher_D" 100 ].

(** One employee with fifty days. *)
Definition teacher_b : list TeacherDays :=
  [ mkTeacherDays "2020-2021" "Teacher_B" 50 ].


(** One employee with eighty days over two school years. *)
Definition eighty_days : list TeacherDays :=
  [ mkTeacherDays "2020-2021" "E1" 30; mkTeacherDays "2021-2022" "E1" 50 ].

End Examples.

(** ** agents/data_selection_agent.py *)

(** Column labels are taken to be distinct, as they are once
    [FileUploadAgent.process] has dropped the duplicated ones; the tests
    on [columns.duplicated()] are then never met. *)

Module DataSelectionAgent.

(** The second component of the returned pair, when it is not [None];
    each constructor stands for the message of the code. *)
Inductive message :=
| ColumnsNotFound (missing_cols : list string)
| NoDataAfterColumnSelection
| NoDataAfterFilters.

(** The keys of [filters] that [filter_rows] reads; [None] is a key that
    is absent or whose value is [None].  The bounds of the date range are
    given as timestamps. *)
Record Filters := mkFilters {
  date_range : option (option Timestamp * option Timestamp);
  employee_type : option (list string);
  filled_status : option (list string);
  school_year : option (list string)
}.

(** An empty list is falsy. *)
Definition truthy {A} (l : list A) : bool :=
  match l with [] => false | _ => true end.

(** [filters[key]] is there and truthy *)
Definition given (values : option (list string)) : bool :=
  match values with Some l => truthy l | None => false end.

(** [df.empty]: an axis of length 0 *)
Definition empty (df : DataFrame) : bool :=
  negb (truthy (rows df)) || negb (truthy (columns df)).

(** [[c for c in selected_columns if c not in seen and not seen.add(c)]]:
    the first occurrence of each label, in order. *)
Fixpoint unique (seen : list string) (selected_columns : list string) : list string :=
  match selected_columns with
  | [] => []
  | c :: rest =>
      if bool_decide (c ∈ seen) then unique seen rest
      else c :: unique (c :: seen) rest
  end.

(** [df[cols].copy()] for labels that are all in [df.columns] *)
Definition project (cols : list string) (df : DataFrame) : DataFrame :=
  mkDataFrame cols
    ((fun r : row => filter (fun kv : string * cell => kv.1 ∈ cols) r) <$> rows df).

Definition select_columns (df : DataFrame) (selected_columns : list string)
  : DataFrame * option message :=
  let missing_cols :=
    List.filter (fun col => negb (has_column df col)) selected_columns in
  if truthy missing_cols then (df, Some (ColumnsNotFound missing_cols))
  else
    let unique_cols := unique [] selected_columns in
    let filtered_df := project unique_cols df in
    if empty filtered_df then (df, Some NoDataAfterColumnSelection)
    else (filtered_df, None).

Section Dates.

(** [pd.to_datetime(c, errors='coerce')] on a cell that is neither a
    timestamp nor NA; [None] is NaT. *)
Variable to_datetime : cell -> option Timestamp.

(** One row of [(df['Date'] >= start_date) & (df['Date'] <= end_date)];
    a comparison with NaT is false. *)
Definition in_date_range (start_date end_date : Timestamp) (r : row) : bool :=
  match r !! "Date" with
  | Some (Ts d) => ts_leb start_date d && ts_leb d end_date
  | _ => false
  end.

(** The ['Date'] column is converted when its dtype is not a datetime one;
    converting a column of timestamps and NaT changes nothing, so the
    conversion is applied whatever the dtype. *)
Definition filter_rows (df : DataFrame) (filters : Filters)
  : DataFrame * option message :=
  let filtered_df := df in
  (* date range *)
  let filtered_df :=
    match date_range filters with
    | Some (start_date, end_date) =>
        if has_column filtered_df "Date" then
          let converted :=
            assign "Date"
              (DataCleaningAgentLLM.coerced
                 (DataCleaningAgentLLM.as_timestamp to_datetime) Ts "Date")
              filtered_df in
          match start_date, end_date with
          | Some s, Some e => select (in_date_range s e) converted
          | _, _ => converted
          end
        else filtered_df
    | None => filtered_df
    end in
  (* employee type *)
  let filtered_df :=
    if given (employee_type filters) && has_column filtered_df "Employee Type" then
      select (fun r => cell_isin (default [] (employee_type filters))
                         (r !! "Employee Type")) filtered_df
    else filtered_df in
  (* filled status *)
  let filtered_df :=
    if given (filled_status filters) && has_column filtered_df "Filled" then
      select (fun r => cell_isin (default [] (filled_status filters))
                         (r !! "Filled")) filtered_df
    else filtered_df in
  (* school year *)
  let filtered_df :=
    if given (school_year filters) && has_column filtered_df "School Year" then
      select (fun r => cell_isin (default [] (school_year filters))
                         (r !! "School Year")) filtered_df
    else filtered_df in
  if empty filtered_df then (df, Some NoDataAfterFilters)
  else (filtered_df, None).

(** [process]; [filters] is [None] for a missing or empty dictionary. *)
Definition process (df : DataFrame) (selected_columns : list string)
    (filters : option Filters) : DataFrame * option message :=
  let selected := select_columns df selected_columns in
  match snd selected with
  | Some error => (fst selected, Some error)
  | None =>
      match filters with
      | Some f => filter_rows (fst selected) f
      | None => (fst selected, None)
      end
  end.

End Dates.

End DataSelectionAgent.

(** ** agents/orchestrator_langgraph.py *)

Module LangGraphOrchestrator.

(** The two entries of [blackboard_context] that the cleaning agent
    reads, as [_clean_node] builds them from [filters]. *)
Definition blackboard_context (filters : DataSelectionAgent.Filters)
  : DataCleaningAgentLLM.Context :=
  DataCleaningAgentLLM.mkContext
    (match DataSelectionAgent.employee_type filters with
     | Some _ => true
     | None => false
     end)
    (DataSelectionAgent.employee_type filters).

(** [_clean_node], given the answer of the language model: [None] when
    there is nothing to clean and the state is returned as it is. *)
Definition clean_node (coerce : cell -> option Q)
    (to_datetime : cell -> option Timestamp)
    (suggested_rules : DataCleaningAgentLLM.SuggestedRules)
    (selected_data : option DataFrame) (filters : DataSelectionAgent.Filters)
  : option (result (DataFrame * DataCleaningAgentLLM.Stats)) :=
  match selected_data with
  | Some df =>
      if negb (DataSelectionAgent.empty df) then
        Some (DataCleaningAgentLLM.process coerce to_datetime suggested_rules
                (Some (blackboard_context filters)) df)
      else None
  | None => None
  end.

End LangGraphOrchestrator.

(** ** The three stages of [validate_data_format] *)

Module Validation.

(** [df.dropna(how='all')], unless the table is empty. *)
Definition drop_empty_rows (df : DataFrame) : DataFrame :=
  if DataSelectionAgent.empty df then df
  else select (fun r => negb (forallb (fun col => isna (r !! col)) (columns df))) df.

(** The ['Date'] column converted, and the rows left without a date
    removed. *)
Definition convert_dates (to_datetime : cell -> option Timestamp) (df : DataFrame)
  : DataFrame :=
  if has_column df "Date" then
    let dated :=
      assign "Date"
        (DataCleaningAgentLLM.coerced
           (DataCleaningAgentLLM.as_timestamp to_datetime) Ts "Date") df in
    if 0 <? DataCleaningAgentLLM.count (fun r => isna (r !! "Date")) (rows dated)
    then select (fun r => negb (isna (r !! "Date"))) dated
    else dated
  else df.

(** The ['Duration'] column converted. *)
Definition convert_durations (coerce : cell -> option Q) (df : DataFrame) : DataFrame :=
  if has_column df "Duration" then
    assign "Duration"
      (DataCleaningAgentLLM.coerced (DataCleaningAgentLLM.to_numeric coerce)
         Num "Duration") df
  else df.

(** A row that validation keeps: not entirely empty, with a date that
    converts when there is a ['Date'] column. *)
Definition kept (to_datetime : cell -> option Timestamp) (df : DataFrame) (r : row)
  : bool :=
  (DataSelectionAgent.empty df ||
   negb (forallb (fun col => isna (r !! col)) (columns df))) &&
  (negb (has_column df "Date") ||
   match r !! "Date" ≫= DataCleaningAgentLLM.as_timestamp to_datetime with
   | Some _ => true
   | None => false
   end).

End Validation.

(** ** More of the specification's vocabulary *)

Module Tiers.

(** Excess days of an employee with [d] total days. *)
Definition excess_days (deductible_days coverage_days : Z) (d : Q) : Q :=
  if Spec.high_claimant deductible_days coverage_days d
  then d - inject_Z (Spec.coverage_ceiling deductible_days coverage_days)
  else 0.

Definition total_excess_days (deductible_days coverage_days : Z)
    (teacher_days : list TeacherDays) : Q :=
  Spec.Qsum (fun e => excess_days deductible_days coverage_days
                        (Spec.total_of e teacher_days))
            (Spec.employees teacher_days).


(** The rule predicates of the cleaning pipeline, on one row. *)
Definition unfilled_no_substitute (r : row) : bool :=
  cell_is "Unfilled" (r !! "Filled") && cell_is "NO" (r !! "Needs Substitute").

End Tiers.

(** ** More sample inputs *)

Module Samples.

Definition absences : DataFrame :=
  mkDataFrame ["Date"; "School Year"; "Employee Identifier"; "Employee Type";
               "Absence Type"; "Duration"; "Filled"; "Needs Substitute"]
    [ {[ "Date" := Ts (mkTimestamp 2021 9 1 0); "School Year" := Str "2021-2022";
         "Employee Identifier" := Str "E1"; "Employee Type" := Str "Teacher";
         "Absence Type" := Str "Full Day"; "Duration" := Num 7.5;
         "Filled" := Str "Filled"; "Needs Substitute" := Str "YES" ]};
      {[ "Date" := Ts (mkTimestamp 2020 9 1 0); "School Year" := Str "2021-2022";
         "Employee Identifier" := Str "E2"; "Employee Type" := Str "Teacher";
         "Absence Type" := Str "AM Half Day"; "Duration" := Num 3.75;
         "Filled" := Str "Filled"; "Needs Substitute" := Str "YES" ]};
      {[ "Date" := Str "not a date"; "School Year" := Str "2021-2022";
         "Employee Identifier" := Str "E3"; "Employee Type" := Str "Teacher";
         "Absence Type" := Str "Custom Duration"; "Duration" := Num (-7.5);
         "Filled" := Str "Unfilled"; "Needs Substitute" := Str "NO" ]};
      {[ "Date" := Ts (mkTimestamp 2022 1 10 0); "School Year" := Str "2021-2022";
         "Employee Identifier" := Str "E4"; "Employee Type" := Str "Custodian";
         "Absence Type" := Str "Full Day"; "Duration" := NaN;
         "Filled" := Str "Unfilled"; "Needs Substitute" := Str "NO" ]} ].



Definition teacher_filter : DataSelectionAgent.Filters :=
  DataSelectionAgent.mkFilters None (Some ["Teacher"]) None None.

Definition custodian_filter : DataSelectionAgent.Filters :=
  DataSelectionAgent.mkFilters None (Some ["Custodian"]) None None.

Definition nobody_filter : DataSelectionAgent.Filters :=
  DataSelectionAgent.mkFilters None (Some ["Principal"]) None None.

End Samples.

(** * Theorems *)

(** ** Day values *)

Lemma half_day_label (l : string) :
  bool_decide (l ∈ ["AM Half Day"; "PM Half Day"]) =
  String.eqb l "AM Half Day" || String.eqb l "PM Half Day".
Proof.
  destruct (String.eqb_spec l "AM Half Day") as [-> | Ham]; [done |].
  destruct (String.eqb_spec l "PM Half Day") as [-> | Hpm]; [done |].
  apply bool_decide_eq_false.
  rewrite !elem_of_cons, elem_of_nil. tauto.
Qed.

Ltac by_label l :=
  destruct (String.eqb_spec l "Full Day") as [-> | _]; [reflexivity |];
  destruct (String.eqb_spec l "AM Half Day") as [-> | _]; [reflexivity |];
  destruct (String.eqb_spec l "PM Half Day") as [-> | _]; [reflexivity |];
  destruct (String.eqb_spec l "Custom Duration") as [-> | _]; [| reflexivity].

Lemma legacy_days_table coerce (r : row) :
  DataCleaningAgent.calculate_days coerce r =
  Spec.day_value_any_sign (Spec.absence_type r) (Spec.duration_hours coerce r).
Proof.
  unfold DataCleaningAgent.calculate_days, Spec.absence_type, Spec.duration_hours,
    Spec.absence_type_of_label.
  destruct (r !! "Absence Type") as [[| s | q | t] |]; cbn [isna]; try reflexivity.
  rewrite half_day_label. generalize (Py.strip s) as l. intros l. by_label l.
  cbn. destruct (r !! "Duration") as [c |]; [| reflexivity].
  destruct c; reflexivity.
Qed.

Lemma llm_days_table coerce (r : row) :
  DataCleaningAgentLLM.calculate_days coerce r =
  Spec.day_value_any_sign (Spec.absence_type r) (Spec.duration_hours coerce r).
Proof.
  unfold DataCleaningAgentLLM.calculate_days, Spec.absence_type, Spec.duration_hours,
    Spec.absence_type_of_label.
  destruct (r !! "Absence Type") as [[| s | q | t] |]; cbn [isna]; try reflexivity.
  rewrite half_day_label. generalize (Py.strip s) as l. intros l. by_label l.
  cbn. destruct (r !! "Duration") as [c |]; [| reflexivity].
  destruct c; reflexivity.
Qed.

(** C3, as the code has it.  In both cleaning agents the day value of a
    row is 1 for a full day, 0.5 for a morning or afternoon half day, the
    hours divided by 7.5 for a custom duration whose duration is a number
    (whatever its sign), and 0 when the duration is missing or not a
    number, when the absence type is another one and when it is missing. *)
Theorem calculate_days_table coerce (r : row) :
  DataCleaningAgent.calculate_days coerce r =
    Spec.day_value_any_sign (Spec.absence_type r) (Spec.duration_hours coerce r) /\
  DataCleaningAgentLLM.calculate_days coerce r =
    Spec.day_value_any_sign (Spec.absence_type r) (Spec.duration_hours coerce r).
Proof. split; [apply legacy_days_table | apply llm_days_table]. Qed.

(** C3 fails on a negative duration: a custom absence of -7.5 hours is
    worth -1 day, where the table of the specification gives 0. *)
Lemma negative_duration_is_counted :
  Spec.absence_type Examples.negative_duration_row = Some Spec.CustomDuration /\
  (DataCleaningAgentLLM.calculate_days Examples.coerce_nothing
     Examples.negative_duration_row == -1)%Q /\
  (DataCleaningAgent.calculate_days Examples.coerce_nothing
     Examples.negative_duration_row == -1)%Q /\
  (Spec.day_value (Spec.absence_type Examples.negative_duration_row)
     (Spec.duration_hours Examples.coerce_nothing Examples.negative_duration_row)
   == 0)%Q /\
  ~ (DataCleaningAgentLLM.calculate_days Examples.coerce_nothing
       Examples.negative_duration_row ==
     Spec.day_value (Spec.absence_type Examples.negative_duration_row)
       (Spec.duration_hours Examples.coerce_nothing Examples.negative_duration_row))%Q.
Proof. repeat split; try (vm_compute; congruence). Qed.

(** ** Recomputing the day value *)

Lemma llm_days_ignore_day_column coerce (r : row) :
  DataCleaningAgentLLM.calculate_days coerce (delete "Absence_Days" r) =
  DataCleaningAgentLLM.calculate_days coerce r.
Proof.
  unfold DataCleaningAgentLLM.calculate_days.
  rewrite !lookup_delete_ne by discriminate. reflexivity.
Qed.

Lemma has_other_column df1 df2 (col : string) :
  Spec.other_columns df1 = Spec.other_columns df2 ->
  col <> "Absence_Days" ->
  has_column df1 col = has_column df2 col.
Proof.
  intros Hcols Hne. unfold has_column.
  assert (Hin : forall df, col ∈ columns df <-> col ∈ Spec.other_columns df).
  { intros df. unfold Spec.other_columns.
    rewrite !list_elem_of_In, filter_In.
    destruct (String.eqb_spec col "Absence_Days"); [contradiction |].
    simpl. tauto. }
  apply bool_decide_ext. rewrite !Hin, Hcols. reflexivity.
Qed.

Lemma assign_days_rows coerce df :
  rows (assign "Absence_Days"
          (fun r => Num (DataCleaningAgentLLM.calculate_days coerce r)) df) =
  (fun r : row =>
     <["Absence_Days" := Num (DataCleaningAgentLLM.calculate_days coerce r)]> r)
    <$> (delete "Absence_Days" <$> rows df).
Proof.
  unfold assign. cbn [rows]. rewrite <- list_fmap_compose.
  apply list_fmap_ext. intros _ r _. cbn.
  rewrite llm_days_ignore_day_column. symmetry. apply insert_delete_eq.
Qed.

(** C2, as the code has it.  For two tables that have the ['Absence Type']
    column and differ only in a day-value column that was there before,
    [DataCleaningAgentLLM.calculate_absence_days] gives the same
    ['Absence_Days'] values: each is computed again from the absence type
    and the duration of its row. *)
Theorem absence_days_recomputed coerce df1 df2 :
  Spec.differ_only_in_absence_days df1 df2 ->
  has_column df1 "Absence Type" = true ->
  Spec.absence_days_column (DataCleaningAgentLLM.calculate_absence_days coerce df1) =
  Spec.absence_days_column (DataCleaningAgentLLM.calculate_absence_days coerce df2) /\
  Spec.absence_days_column (DataCleaningAgentLLM.calculate_absence_days coerce df1) =
  (fun r => Some (Num (Spec.day_value_any_sign (Spec.absence_type r)
                         (Spec.duration_hours coerce r)))) <$> rows df1.
Proof.
  intros [Hcols Hrows] Htype.
  assert (Htype2 : has_column df2 "Absence Type" = true).
  { rewrite <- (has_other_column df1 df2) by (done || discriminate). done. }
  unfold DataCleaningAgentLLM.calculate_absence_days, Spec.absence_days_column.
  rewrite Htype, Htype2. cbn [negb]. split.
  - rewrite !assign_days_rows, Hrows. reflexivity.
  - unfold assign. cbn [rows]. rewrite <- list_fmap_compose.
    apply list_fmap_ext. intros _ r _. cbn.
    rewrite lookup_insert_eq, llm_days_table. reflexivity.
Qed.

Lemma absence_days_recomputed_witness :
  Spec.absence_days_column
    (DataCleaningAgentLLM.calculate_absence_days Examples.coerce_nothing
       Examples.typed_hours_as_days) =
  Spec.absence_days_column
    (DataCleaningAgentLLM.calculate_absence_days Examples.coerce_nothing
       Examples.typed_days_as_days) /\
  Spec.absence_days_column
    (DataCleaningAgentLLM.calculate_absence_days Examples.coerce_nothing
       Examples.typed_hours_as_days) =
  (fun r => Some (Num (Spec.day_value_any_sign (Spec.absence_type r)
                         (Spec.duration_hours Examples.coerce_nothing r))))
    <$> rows Examples.typed_hours_as_days.
Proof.
  apply (absence_days_recomputed Examples.coerce_nothing
           Examples.typed_hours_as_days Examples.typed_days_as_days).
  - split; vm_compute; reflexivity.
  - vm_compute; reflexivity.
Defined.

(** C2 fails without the ['Absence Type'] column: the table is returned as
    it came, with the day values it had. *)
Lemma day_column_kept_without_absence_type :
  Spec.differ_only_in_absence_days Examples.hours_as_days Examples.days_as_days /\
  Spec.absence_days_column
    (DataCleaningAgentLLM.calculate_absence_days Examples.coerce_nothing
       Examples.hours_as_days) = [Some (Num 7.5)] /\
  Spec.absence_days_column
    (DataCleaningAgentLLM.calculate_absence_days Examples.coerce_nothing
       Examples.days_as_days) = [Some (Num 1)] /\
  Spec.absence_days_column
    (DataCleaningAgentLLM.calculate_absence_days Examples.coerce_nothing
       Examples.hours_as_days) <>
  Spec.absence_days_column
    (DataCleaningAgentLLM.calculate_absence_days Examples.coerce_nothing
       Examples.days_as_days).
Proof.
  split; [split; vm_compute; reflexivity |].
  split; [vm_compute; reflexivity |].
  split; [vm_compute; reflexivity |].
  vm_compute. discriminate.
Qed.

(** The older agent returns a table that has an ['Absence_Days'] column as
    it is, absence type or not. *)
Lemma legacy_keeps_day_column coerce df :
  has_column df "Absence_Days" = true ->
  DataCleaningAgent.calculate_absence_days coerce df = df.
Proof.
  intros H. unfold DataCleaningAgent.calculate_absence_days. rewrite H. reflexivity.
Qed.

(** ** Row counts of the cleaning pipeline *)

Lemma len_select_le mask df : len (select mask df) <= len df.
Proof.
  unfold len, select. cbn [rows].
  apply Nat2Z.inj_le, filter_length_le.
Qed.

Lemma len_assign col f df : len (assign col f df) = len df.
Proof. unfold len, assign. cbn [rows]. rewrite length_fmap. reflexivity. Qed.

Lemma legacy_rule1_shrinks df : len (DataCleaningAgent.apply_rule1 df) <= len df.
Proof.
  unfold DataCleaningAgent.apply_rule1.
  destruct (_ && _); [apply len_select_le | lia].
Qed.

Lemma legacy_rule2_shrinks df : len (DataCleaningAgent.apply_rule2 df) <= len df.
Proof.
  unfold DataCleaningAgent.apply_rule2.
  destruct (has_column _ _); [apply len_select_le | lia].
Qed.

Lemma legacy_days_keep_rows coerce df :
  len (DataCleaningAgent.calculate_absence_days coerce df) = len df.
Proof.
  unfold DataCleaningAgent.calculate_absence_days.
  destruct (has_column _ _); [reflexivity | apply len_assign].
Qed.

(** C10.  In [DataCleaningAgent.process] the row count never grows:
    [original_rows >= after_rule1 >= after_rule2]; computing the absence
    days leaves the count as it is; and in the returned statistics
    [rows_removed = original_rows - final_rows], with [final_rows] the
    length of the returned table and [original_rows] that of the input. *)
Theorem process_row_counts coerce df :
  let out := DataCleaningAgent.process coerce df in
  let stats := snd out in
  DataCleaningAgent.original_rows stats = len df /\
  DataCleaningAgent.after_rule1 stats <= DataCleaningAgent.original_rows stats /\
  DataCleaningAgent.after_rule2 stats <= DataCleaningAgent.after_rule1 stats /\
  (forall table, len (DataCleaningAgent.calculate_absence_days coerce table) = len table) /\
  DataCleaningAgent.final_rows stats = DataCleaningAgent.after_rule2 stats /\
  DataCleaningAgent.final_rows stats = len (fst out) /\
  DataCleaningAgent.rows_removed stats =
    DataCleaningAgent.original_rows stats - DataCleaningAgent.final_rows stats /\
  0 <= DataCleaningAgent.rows_removed stats.
Proof.
  cbn.
  pose proof (legacy_rule1_shrinks df) as H1.
  pose proof (legacy_rule2_shrinks (DataCleaningAgent.apply_rule1 df)) as H2.
  pose proof (legacy_days_keep_rows coerce
                (DataCleaningAgent.apply_rule2 (DataCleaningAgent.apply_rule1 df))) as H3.
  repeat split; try lia; try assumption.
  intros table. apply legacy_days_keep_rows.
Qed.

(** ** Validation *)

Lemma validate_returns coerce to_datetime df :
  exists table report,
    DataCleaningAgentLLM.validate_data_format coerce to_datetime df =
      Returned (table, report) /\
    forall missing,
      missing = List.filter (fun col => negb (has_column df col))
                            DataCleaningAgentLLM.required_columns ->
      missing <> [] ->
      head (DataCleaningAgentLLM.format_issues report) =
        Some (DataCleaningAgentLLM.MissingRequiredColumns missing).
Proof.
  unfold DataCleaningAgentLLM.validate_data_format.
  eexists _, _. split; [reflexivity |].
  intros missing -> Hne. cbn [DataCleaningAgentLLM.format_issues].
  destruct (List.filter _ DataCleaningAgentLLM.required_columns) as [| c l] eqn:E;
    [contradiction |].
  cbn [DataCleaningAgentLLM.truthy].
  repeat match goal with
         | |- context [if ?b then _ ++ _ else _] => destruct b
         end; reflexivity.
Qed.

Lemma process_returns coerce to_datetime rules ctx df :
  exists cleaned stats,
    DataCleaningAgentLLM.process coerce to_datetime rules ctx df =
      Returned (cleaned, stats).
Proof.
  unfold DataCleaningAgentLLM.process.
  destruct (validate_returns coerce to_datetime df) as (table & report & -> & _).
  cbn [bind]. eexists _, _. reflexivity.
Qed.




(** ** The period-consistency rule *)

Lemma elem_of_select mask df (r : row) :
  r ∈ rows (select mask df) <-> r ∈ rows df /\ mask r = true.
Proof. unfold select. cbn [rows]. rewrite !list_elem_of_In. apply filter_In. Qed.

Lemma pd_Timestamp_valid y m d :
  Spec.valid_year y -> pd_Timestamp y m d = Some (mkTimestamp y m d 0).
Proof.
  unfold Spec.valid_year, pd_Timestamp. intros [Hlo Hhi].
  apply Z.leb_le in Hlo, Hhi. rewrite Hlo, Hhi. reflexivity.
Qed.

Lemma pd_Timestamp_some y m d t :
  pd_Timestamp y m d = Some t -> Spec.valid_year y /\ t = mkTimestamp y m d 0.
Proof.
  unfold Spec.valid_year, pd_Timestamp.
  destruct (Py.MINYEAR <=? y) eqn:Hlo; [| discriminate].
  destruct (y <=? Py.MAXYEAR) eqn:Hhi; [| discriminate].
  cbn. intros [= <-]. apply Z.leb_le in Hlo, Hhi. auto.
Qed.

(** What it takes for a period to be read: two parts around one hyphen,
    both integers for [int], both years that [datetime] accepts. *)
Lemma school_year_range_some period_id start_date end_date :
  DataCleaningAgentLLM.get_school_year_range period_id = Some (start_date, end_date) <->
  exists p0 p1 start_year end_year,
    Py.split "-"%char period_id = [p0; p1] /\
    Py.int p0 = Some start_year /\ Py.int p1 = Some end_year /\
    Spec.valid_year start_year /\ Spec.valid_year end_year /\
    start_date = Spec.july_1 start_year /\ end_date = Spec.june_30 end_year.
Proof.
  unfold DataCleaningAgentLLM.get_school_year_range. split.
  - destruct (Py.split _ _) as [| p0 [| p1 [| ? ?]]]; try discriminate.
    destruct (Py.int p0) as [y0 |] eqn:E0; [| discriminate].
    destruct (Py.int p1) as [y1 |] eqn:E1; [| discriminate]. cbn.
    destruct (pd_Timestamp y0 7 1) as [a |] eqn:Ha; [| discriminate].
    destruct (pd_Timestamp y1 6 30) as [b |] eqn:Hb; [| discriminate]. cbn.
    intros [= <- <-].
    apply pd_Timestamp_some in Ha as [? ->], Hb as [? ->].
    exists p0, p1, y0, y1. split_and!; done.
  - intros (p0 & p1 & y0 & y1 & -> & -> & -> & H0 & H1 & -> & ->). cbn.
    rewrite (pd_Timestamp_valid y0), (pd_Timestamp_valid y1) by assumption.
    reflexivity.
Qed.




Lemma rule3_keeps_unread to_datetime df should_apply (r : row) :
  r ∈ rows df ->
  Spec.period_years (r !! "School Year") = None ->
  r ∈ rows (DataCleaningAgentLLM.apply_rule3 to_datetime df should_apply).
Proof.
  intros Hr Hnone. unfold DataCleaningAgentLLM.apply_rule3.
  destruct (negb should_apply); [assumption |].
  destruct (_ || _); [assumption |].
  apply elem_of_select. split; [assumption |].
  unfold DataCleaningAgentLLM.rule3_valid.
  destruct (isna (r !! "School Year") || isna (r !! "Date")); [reflexivity |].
  unfold Spec.period_years in Hnone.
  destruct (r !! "School Year" ≫= DataCleaningAgentLLM.school_year_range)
    as [[a b] |]; [discriminate | reflexivity].
Qed.



(** Only a record whose school year is read as two years can be dropped. *)
Lemma dropped_period_was_read to_datetime df should_apply (r : row) :
  r ∈ rows df ->
  r ∉ rows (DataCleaningAgentLLM.apply_rule3 to_datetime df should_apply) ->
  exists period_id p0 p1 start_year end_year,
    r !! "School Year" = Some (Str period_id) /\
    Py.split "-"%char period_id = [p0; p1] /\
    Py.int p0 = Some start_year /\ Py.int p1 = Some end_year /\
    Spec.valid_year start_year /\ Spec.valid_year end_year.
Proof.
  intros Hr Hdropped.
  destruct (Spec.period_years (r !! "School Year")) as [[y0 y1] |] eqn:Hread.
  - unfold Spec.period_years in Hread.
    destruct (r !! "School Year") as [[| s | q | t] |]; try discriminate.
    cbn in Hread.
    destruct (DataCleaningAgentLLM.get_school_year_range s) as [[a b] |] eqn:Hrange;
      [| discriminate].
    apply school_year_range_some in Hrange
      as (p0 & p1 & sy & ey & ? & ? & ? & ? & ? & _).
    exists s, p0, p1, sy, ey. split_and!; done.
  - exfalso. apply Hdropped. by apply rule3_keeps_unread.
Qed.


(** ** Premium *)


(** ** Grouping by employee *)

Section Grouping.

Local Abbreviation keys s := (fst <$> s) (only parsing).
Local Abbreviation sorted s := (StronglySorted String_as_OT.lt (keys s)) (only parsing).

Lemma lt_neq (a b : string) : String_as_OT.lt a b -> a <> b.
Proof.
  intros Hlt ->. exact (StrictOrder_Irreflexive (R := String_as_OT.lt) b Hlt).
Qed.

Lemma sorted_head_fresh (k : string) (v : Q) (s : Series) :
  sorted ((k, v) :: s) -> k ∉ keys s.
Proof.
  intros Hs Hin. cbn in Hs. apply StronglySorted_inv in Hs as [_ Hall].
  rewrite Forall_forall in Hall.
  exact (lt_neq _ _ (Hall _ Hin) eq_refl).
Qed.

Lemma sorted_NoDup (s : Series) : sorted s -> NoDup (keys s).
Proof.
  induction s as [| [k v] s IH]; intros Hs; cbn; [constructor |].
  constructor.
  - by apply (sorted_head_fresh k v).
  - apply IH. cbn in Hs. by apply StronglySorted_inv in Hs as [? _].
Qed.

Lemma add_to_group_keys (k k' : string) (v : Q) (s : Series) :
  k' ∈ keys (add_to_group k v s) <-> k' = k \/ k' ∈ keys s.
Proof.
  induction s as [| [k0 v0] s IH]; cbn.
  - rewrite list_elem_of_singleton, elem_of_nil. tauto.
  - destruct (String_as_OT.compare_spec k k0) as [Heq | Hlt | Hgt]; cbn;
      rewrite ?elem_of_cons, ?IH; cbn; [red in Heq; subst k |..]; tauto.
Qed.

Lemma add_to_group_sorted (k : string) (v : Q) (s : Series) :
  sorted s -> sorted (add_to_group k v s).
Proof.
  induction s as [| [k0 v0] s IH]; cbn; intros Hs.
  - repeat constructor.
  - destruct (String_as_OT.compare_spec k k0) as [Heq | Hlt | Hgt]; cbn.
    + exact Hs.
    + constructor; [exact Hs |]. constructor; [exact Hlt |].
      apply StronglySorted_inv in Hs as [_ Hall].
      eapply Forall_impl; [exact Hall |]. cbn. intros a Ha.
      exact (StrictOrder_Transitive (R := String_as_OT.lt) _ _ _ Hlt Ha).
    + apply StronglySorted_inv in Hs as [Hs Hall].
      constructor; [by apply IH |].
      rewrite Forall_forall in *. intros a Ha.
      apply add_to_group_keys in Ha as [-> | Ha]; [exact Hgt |].
      by apply Hall.
Qed.

(** Where an entry of the updated series comes from. *)
Lemma add_to_group_entry (k k' : string) (v v' : Q) (s : Series) :
  sorted s ->
  (k', v') ∈ add_to_group k v s ->
  (k' <> k /\ (k', v') ∈ s) \/
  (k' = k /\ exists v0, (k, v0) ∈ s /\ v' = (v0 + v)%Q) \/
  (k' = k /\ (k ∉ keys s) /\ v' = v).
Proof.
  induction s as [| [k0 v0] s IH]; cbn; intros Hs Hin.
  - apply list_elem_of_singleton in Hin as [= -> ->].
    right; right. split_and!; [done | apply not_elem_of_nil | done].
  - pose proof (sorted_head_fresh k0 v0 s Hs) as Hfresh.
    assert (Htail : forall a b, (a, b) ∈ s -> a <> k0).
    { intros a b Hab ->. apply Hfresh.
      apply list_elem_of_fmap. by exists (k0, b). }
    destruct (String_as_OT.compare_spec k k0) as [Heq | Hlt | Hgt].
    + red in Heq. subst k.
      apply elem_of_cons in Hin as [[= -> ->] | Hin].
      * right; left. split; [done |]. exists v0. split; [left | done].
      * left. split; [by eapply Htail | by right].
    + assert (Hk : k ∉ keys ((k0, v0) :: s)).
      { cbn. intros [-> | Hk]%elem_of_cons.
        - by apply lt_neq in Hlt.
        - cbn in Hs. apply StronglySorted_inv in Hs as [_ Hall].
          rewrite Forall_forall in Hall.
          apply (lt_neq k k); [| done].
          exact (StrictOrder_Transitive (R := String_as_OT.lt) _ _ _ Hlt
                   (Hall _ Hk)). }
      apply elem_of_cons in Hin as [[= -> ->] | Hin].
      * right; right. done.
      * left. split; [| done]. intros ->. apply Hk.
        apply list_elem_of_fmap. by exists (k, v').
    + apply elem_of_cons in Hin as [[= -> ->] | Hin].
      * left. split; [by apply lt_neq | left].
      * cbn in Hs. apply StronglySorted_inv in Hs as [Hs _].
        destruct (IH Hs Hin) as [[Hne Hold] | [[-> (w & Hw & ->)] | [-> [Hk ->]]]].
        -- left. split; [done | by right].
        -- right; left. split; [done |]. exists w. split; [by right | done].
        -- right; right. split_and!; [done | | done].
           cbn. intros [-> | Hk']%elem_of_cons; [by apply lt_neq in Hgt | done].
Qed.

Lemma groupby_sum_snoc (teacher_days : list TeacherDays) (r : TeacherDays) :
  groupby_sum (teacher_days ++ [r]) =
  add_to_group (employee_identifier r) (total_days r) (groupby_sum teacher_days).
Proof. unfold groupby_sum. rewrite fold_left_app. reflexivity. Qed.

Lemma total_of_snoc (e : string) (teacher_days : list TeacherDays) (r : TeacherDays) :
  (Spec.total_of e (teacher_days ++ [r]) ==
   Spec.total_of e teacher_days +
   (if String.eqb (employee_identifier r) e then total_days r else 0))%Q.
Proof.
  induction teacher_days as [| r0 l IH]; cbn.
  - destruct (String.eqb _ _); lra.
  - destruct (String.eqb (employee_identifier r0) e); rewrite IH; lra.
Qed.

Lemma total_of_absent (e : string) (teacher_days : list TeacherDays) :
  (e ∉ employee_identifier <$> teacher_days) -> Spec.total_of e teacher_days = 0%Q.
Proof.
  induction teacher_days as [| r0 l IH]; cbn; intros Hin; [done |].
  apply not_elem_of_cons in Hin as [Hne Hin].
  destruct (String.eqb_spec (employee_identifier r0) e); [congruence | auto].
Qed.

Lemma groupby_sum_sorted (teacher_days : list TeacherDays) :
  sorted (groupby_sum teacher_days).
Proof.
  induction teacher_days as [| r l IH] using rev_ind.
  - constructor.
  - rewrite groupby_sum_snoc. by apply add_to_group_sorted.
Qed.

Lemma groupby_sum_keys (teacher_days : list TeacherDays) (e : string) :
  e ∈ keys (groupby_sum teacher_days) <-> e ∈ Spec.employees teacher_days.
Proof.
  unfold Spec.employees. rewrite elem_of_remove_dups.
  induction teacher_days as [| r l IH] using rev_ind.
  - reflexivity.
  - rewrite groupby_sum_snoc, add_to_group_keys, IH, fmap_app, elem_of_app.
    cbn. rewrite list_elem_of_singleton. tauto.
Qed.

Lemma groupby_sum_total (teacher_days : list TeacherDays) (e : string) (d : Q) :
  (e, d) ∈ groupby_sum teacher_days -> (d == Spec.total_of e teacher_days)%Q.
Proof.
  revert e d. induction teacher_days as [| r l IH] using rev_ind; intros e d Hin.
  - by apply elem_of_nil in Hin.
  - rewrite groupby_sum_snoc in Hin. rewrite total_of_snoc.
    apply add_to_group_entry in Hin
      as [[Hne Hold] | [[-> (w & Hw & ->)] | [-> [Hk ->]]]];
      [| | | apply groupby_sum_sorted].
    + destruct (String.eqb_spec (employee_identifier r) e); [congruence |].
      rewrite (IH _ _ Hold). lra.
    + rewrite String.eqb_refl, (IH _ _ Hw). lra.
    + rewrite String.eqb_refl.
      rewrite groupby_sum_keys in Hk. unfold Spec.employees in Hk.
      rewrite elem_of_remove_dups in Hk.
      rewrite (total_of_absent _ _ Hk). lra.
Qed.

Lemma groupby_sum_employees (teacher_days : list TeacherDays) :
  keys (groupby_sum teacher_days) ≡ₚ Spec.employees teacher_days.
Proof.
  apply NoDup_Permutation.
  - apply sorted_NoDup, groupby_sum_sorted.
  - apply NoDup_remove_dups.
  - apply groupby_sum_keys.
Qed.

End Grouping.

(** ** Sums and counts over a series *)

Lemma Qsum_ext {A} (f g : A -> Q) (l : list A) :
  (forall x, x ∈ l -> (f x == g x)%Q) -> (Spec.Qsum f l == Spec.Qsum g l)%Q.
Proof.
  unfold Spec.Qsum.
  induction l as [| x l IH]; cbn [fold_right]; intros H; [reflexivity |].
  rewrite (H x) by left. rewrite IH; [reflexivity |].
  intros y Hy. apply H. by right.
Qed.

Lemma Qsum_Permutation {A} (f : A -> Q) (l l' : list A) :
  l ≡ₚ l' -> (Spec.Qsum f l == Spec.Qsum f l')%Q.
Proof.
  unfold Spec.Qsum.
  induction 1 as [| x l l' _ IH | x y l | l l' l'' _ IH1 _ IH2]; cbn [fold_right].
  - reflexivity.
  - rewrite IH. reflexivity.
  - lra.
  - rewrite IH1. exact IH2.
Qed.

Lemma Qsum_fmap {A B} (h : A -> B) (f : B -> Q) (l : list A) :
  Spec.Qsum f (h <$> l) = Spec.Qsum (fun x => f (h x)) l.
Proof.
  unfold Spec.Qsum. induction l as [| x l IH]; cbn; [reflexivity | by rewrite IH].
Qed.

Lemma Qsum_filter {A} (p : A -> bool) (f : A -> Q) (l : list A) :
  (Spec.Qsum f (List.filter p l) == Spec.Qsum (fun x => if p x then f x else 0) l)%Q.
Proof.
  unfold Spec.Qsum. induction l as [| x l IH]; cbn [List.filter fold_right]; [reflexivity |].
  destruct (p x); cbn [fold_right]; rewrite IH; lra.
Qed.

Lemma filter_length_ext {A} (p q : A -> bool) (l : list A) :
  (forall x, x ∈ l -> p x = q x) ->
  length (List.filter p l) = length (List.filter q l).
Proof.
  induction l as [| x l IH]; cbn; intros H; [reflexivity |].
  rewrite (H x) by left.
  destruct (q x); cbn; rewrite IH; try reflexivity; intros y Hy; apply H; by right.
Qed.

Lemma filter_length_Permutation {A} (p : A -> bool) (l l' : list A) :
  l ≡ₚ l' -> length (List.filter p l) = length (List.filter p l').
Proof.
  induction 1 as [| x l l' _ IH | x y l | l l' l'' _ IH1 _ IH2]; cbn.
  - reflexivity.
  - destruct (p x); cbn; by rewrite IH.
  - destruct (p x), (p y); reflexivity.
  - by rewrite IH1.
Qed.

Lemma filter_length_fmap {A B} (h : A -> B) (p : B -> bool) (l : list A) :
  length (List.filter p (h <$> l)) = length (List.filter (fun x => p (h x)) l).
Proof.
  induction l as [| x l IH]; cbn; [reflexivity |].
  destruct (p (h x)); cbn; by rewrite IH.
Qed.

(** Three properties of which each element has exactly one split a list
    in three. *)
Lemma filter_length_partition {A} (p1 p2 p3 : A -> bool) (l : list A) :
  (forall x, Z.b2z (p1 x) + Z.b2z (p2 x) + Z.b2z (p3 x) = 1) ->
  (length (List.filter p1 l) + length (List.filter p2 l) +
   length (List.filter p3 l) = length l)%nat.
Proof.
  intros H. induction l as [| x l IH]; cbn; [reflexivity |].
  specialize (H x). destruct (p1 x), (p2 x), (p3 x); cbn in *; lia.
Qed.

(** ** Tiers *)

Lemma below_deductible_proper deductible (d d' : Q) :
  (d == d')%Q -> Spec.below_deductible deductible d = Spec.below_deductible deductible d'.
Proof. intros H. unfold Spec.below_deductible. by rewrite H. Qed.

Lemma coverage_range_proper deductible coverage (d d' : Q) :
  (d == d')%Q ->
  Spec.coverage_range deductible coverage d = Spec.coverage_range deductible coverage d'.
Proof. intros H. unfold Spec.coverage_range, Qltb. by rewrite H. Qed.

Lemma high_claimant_proper deductible coverage (d d' : Q) :
  (d == d')%Q ->
  Spec.high_claimant deductible coverage d = Spec.high_claimant deductible coverage d'.
Proof. intros H. unfold Spec.high_claimant, Qltb. by rewrite H. Qed.

Lemma Qltb_lt (x y : Q) : Qltb x y = true <-> (x < y)%Q.
Proof.
  unfold Qltb. rewrite negb_true_iff, <- not_true_iff_false, Qle_bool_iff.
  split; [apply Qnot_le_lt | apply Qlt_not_le].
Qed.

Lemma Qltb_ge (x y : Q) : Qltb x y = false <-> (y <= x)%Q.
Proof. unfold Qltb. rewrite negb_false_iff. apply Qle_bool_iff. Qed.

Lemma Qle_bool_gt (x y : Q) : Qle_bool x y = false <-> (y < x)%Q.
Proof.
  rewrite <- not_true_iff_false, Qle_bool_iff.
  split; [apply Qnot_le_lt | apply Qlt_not_le].
Qed.

Ltac tiers :=
  unfold Spec.below_deductible, Spec.coverage_range, Spec.high_claimant,
    Spec.coverage_ceiling in *;
  rewrite ?inject_Z_plus in *;
  repeat match goal with
         | |- context [Qle_bool ?x ?y] => destruct (Qle_bool x y) eqn:?
         | |- context [Qltb ?x ?y] => destruct (Qltb x y) eqn:?
         end;
  repeat match goal with
         | H : Qle_bool _ _ = true |- _ => apply Qle_bool_iff in H
         | H : Qle_bool _ _ = false |- _ => apply Qle_bool_gt in H
         | H : Qltb _ _ = true |- _ => apply Qltb_lt in H
         | H : Qltb _ _ = false |- _ => apply Qltb_ge in H
         end.

(** With a coverage that is not negative, a total is in one tier only. *)
Lemma one_tier deductible coverage (d : Q) :
  0 <= coverage ->
  Z.b2z (Spec.below_deductible deductible d) +
  Z.b2z (Spec.coverage_range deductible coverage d) +
  Z.b2z (Spec.high_claimant deductible coverage d) = 1.
Proof.
  intros Hcov. rewrite Zle_Qle in Hcov. change (inject_Z 0) with 0%Q in Hcov.
  tiers; cbn; try reflexivity; exfalso; lra.
Qed.

(** The count of a tier in the grouped series is its population. *)
Lemma tier_population (tier : Q -> bool) (teacher_days : list TeacherDays) :
  (forall d d' : Q, (d == d')%Q -> tier d = tier d') ->
  size (where_ tier (groupby_sum teacher_days)) = Spec.population tier teacher_days.
Proof.
  intros Hproper. unfold size, where_, Spec.population. f_equal.
  rewrite <- (filter_length_Permutation _ _ _ (groupby_sum_employees teacher_days)).
  rewrite filter_length_fmap. apply filter_length_ext.
  intros [e d] Hin. cbn. apply Hproper. by apply groupby_sum_total.
Qed.

(** ** The rating engine *)

Section Engine.

Variable teacher_days : list TeacherDays.
Variables deductible cc_days : Z.
Variables replacement_cost ark_rate abcover_rate : Q.
Variable approach : option RatingEngineAgentLLM.Approach.

Let results := RatingEngineAgentLLM.calculate_with_reasoning teacher_days
                 deductible cc_days replacement_cost ark_rate abcover_rate approach.
Let staff_in_cc_range :=
  where_ (Spec.coverage_range deductible cc_days) (groupby_sum teacher_days).
Let days_in_range (d : Q) : Q :=
  Qmin (d - inject_Z deductible) (inject_Z (deductible + cc_days - deductible)).

Lemma cc_range_step_above (total : Q) (details : list RatingEngineAgentLLM.Detail)
    (e : string) (d : Q) :
  Qltb (inject_Z deductible) d = true ->
  RatingEngineAgentLLM.cc_range_step deductible (deductible + cc_days)
    (total, details) (e, d) =
  ((total + days_in_range d)%Q,
   details ++ [RatingEngineAgentLLM.mkDetail e d (days_in_range d)]).
Proof.
  intros H. unfold RatingEngineAgentLLM.cc_range_step. rewrite H. reflexivity.
Qed.

(** The loop adds the days in range of each item and lists them. *)
Lemma cc_range_loop (staff : Series) (total : Q) (details : list RatingEngineAgentLLM.Detail) :
  (forall kv, kv ∈ staff -> Qltb (inject_Z deductible) (snd kv) = true) ->
  let out := fold_left (RatingEngineAgentLLM.cc_range_step deductible
                          (deductible + cc_days)) staff (total, details) in
  (fst out == total + Spec.Qsum (fun kv => days_in_range (snd kv)) staff)%Q /\
  snd out = details ++ ((fun kv => RatingEngineAgentLLM.mkDetail (fst kv) (snd kv)
                                     (days_in_range (snd kv))) <$> staff).
Proof.
  revert total details. unfold Spec.Qsum.
  induction staff as [| [e d] staff IH]; intros total details Hall.
  - cbn. split; [lra | by rewrite app_nil_r].
  - cbn [fold_left fold_right fmap list_fmap fst snd].
    rewrite cc_range_step_above by exact (Hall (e, d) ltac:(left)).
    destruct (IH (total + days_in_range d)%Q
                 (details ++ [RatingEngineAgentLLM.mkDetail e d (days_in_range d)]))
      as [Hsum Hdetails].
    { intros kv Hkv. apply Hall. by right. }
    split.
    + etransitivity; [exact Hsum |]. symmetry. apply Qplus_assoc.
    + rewrite Hdetails, <- app_assoc. reflexivity.
Qed.

Lemma in_cc_range_above (kv : string * Q) :
  kv ∈ staff_in_cc_range -> Qltb (inject_Z deductible) (snd kv) = true.
Proof.
  unfold staff_in_cc_range, where_. rewrite list_elem_of_In, filter_In.
  intros [_ H]. unfold Spec.coverage_range in H.
  by apply andb_true_iff in H as [? _].
Qed.

Lemma results_num_staff_cc_range :
  RatingEngineAgentLLM.num_staff_cc_range results = size staff_in_cc_range.
Proof. reflexivity. Qed.

Lemma results_num_high_claimant :
  RatingEngineAgentLLM.num_high_claimant results =
  size (where_ (Spec.high_claimant deductible cc_days) (groupby_sum teacher_days)).
Proof. reflexivity. Qed.

Lemma results_below_deductible_count :
  RatingEngineAgentLLM.below_deductible_count results =
  size (where_ (Spec.below_deductible deductible) (groupby_sum teacher_days)).
Proof. reflexivity. Qed.

Lemma results_total_teachers :
  RatingEngineAgentLLM.total_teachers results = size (groupby_sum teacher_days).
Proof. reflexivity. Qed.

Lemma results_total_cc_days :
  (RatingEngineAgentLLM.total_cc_days results ==
   Spec.Qsum (fun kv => days_in_range (snd kv)) staff_in_cc_range)%Q.
Proof.
  pose proof (cc_range_loop staff_in_cc_range 0%Q [] in_cc_range_above) as [H _].
  etransitivity; [exact H |]. apply Qplus_0_l.
Qed.

Lemma results_cc_range_details :
  RatingEngineAgentLLM.cc_range_details results =
  (fun kv => RatingEngineAgentLLM.mkDetail (fst kv) (snd kv) (days_in_range (snd kv)))
    <$> staff_in_cc_range.
Proof.
  pose proof (cc_range_loop staff_in_cc_range 0%Q [] in_cc_range_above) as [_ H].
  exact H.
Qed.

Lemma results_replacement_cost_cc :
  RatingEngineAgentLLM.replacement_cost_cc results =
  (replacement_cost * RatingEngineAgentLLM.total_cc_days results)%Q.
Proof. reflexivity. Qed.

Lemma days_in_range_chargeable (d d' : Q) :
  (d == d')%Q ->
  ((if Spec.coverage_range deductible cc_days d then days_in_range d else 0) ==
   Spec.chargeable_days deductible cc_days d')%Q.
Proof.
  intros Hd. unfold Spec.chargeable_days, days_in_range.
  rewrite <- (coverage_range_proper _ _ _ _ Hd).
  destruct (Spec.coverage_range deductible cc_days d); [| reflexivity].
  replace (deductible + cc_days - deductible) with cc_days by lia.
  destruct (Q.min_spec (d - inject_Z deductible) (inject_Z cc_days)) as [[? ->] | [? ->]];
    destruct (Q.min_spec (d' - inject_Z deductible) (inject_Z cc_days))
      as [[? ->] | [? ->]]; lra.
Qed.

(** The coverage cost of [calculate_with_reasoning] is the cost per day
    times the chargeable days of the employees in the coverage range. *)
Lemma results_coverage_cost :
  (RatingEngineAgentLLM.replacement_cost_cc results ==
   Spec.coverage_cost replacement_cost deductible cc_days teacher_days)%Q.
Proof.
  rewrite results_replacement_cost_cc, results_total_cc_days.
  unfold Spec.coverage_cost. apply Qmult_comp; [reflexivity |].
  unfold staff_in_cc_range, where_. rewrite Qsum_filter.
  rewrite <- (Qsum_Permutation _ _ _ (groupby_sum_employees teacher_days)).
  rewrite Qsum_fmap. apply Qsum_ext. intros [e d] Hin. cbn [fst snd].
  apply days_in_range_chargeable. by apply groupby_sum_total.
Qed.



End Engine.

(** C5.  With a coverage that is not negative, every total of days is in
    exactly one of the three tiers, the three populations reported by
    [calculate_with_reasoning] are those of the tiers among the distinct
    employees (as are the two that [calculate_coverage_metrics] reports),
    and they add up to the number of distinct employees. *)
Theorem tiers_partition teacher_days deductible cc_days cost a b approach :
  0 <= cc_days ->
  let r := RatingEngineAgentLLM.calculate_with_reasoning teacher_days
             deductible cc_days cost a b approach in
  let m := RatingEngineAgent.calculate_coverage_metrics teacher_days
             deductible cc_days cost in
  (forall d : Q,
     Z.b2z (Spec.below_deductible deductible d) +
     Z.b2z (Spec.coverage_range deductible cc_days d) +
     Z.b2z (Spec.high_claimant deductible cc_days d) = 1) /\
  RatingEngineAgentLLM.below_deductible_count r =
    Spec.population (Spec.below_deductible deductible) teacher_days /\
  RatingEngineAgentLLM.num_staff_cc_range r =
    Spec.population (Spec.coverage_range deductible cc_days) teacher_days /\
  RatingEngineAgentLLM.num_high_claimant r =
    Spec.population (Spec.high_claimant deductible cc_days) teacher_days /\
  RatingEngineAgent.num_staff_cc_range m = RatingEngineAgentLLM.num_staff_cc_range r /\
  RatingEngineAgent.num_high_claimant m = RatingEngineAgentLLM.num_high_claimant r /\
  RatingEngineAgentLLM.total_teachers r =
    Z.of_nat (length (Spec.employees teacher_days)) /\
  RatingEngineAgentLLM.below_deductible_count r +
  RatingEngineAgentLLM.num_staff_cc_range r +
  RatingEngineAgentLLM.num_high_claimant r = RatingEngineAgentLLM.total_teachers r.
Proof.
  intros Hcov r m.
  assert (Hbelow : RatingEngineAgentLLM.below_deductible_count r =
            Spec.population (Spec.below_deductible deductible) teacher_days).
  { unfold r. rewrite results_below_deductible_count. apply tier_population.
    apply below_deductible_proper. }
  assert (Hrange : RatingEngineAgentLLM.num_staff_cc_range r =
            Spec.population (Spec.coverage_range deductible cc_days) teacher_days).
  { unfold r. rewrite results_num_staff_cc_range. apply tier_population.
    apply coverage_range_proper. }
  assert (Hhigh : RatingEngineAgentLLM.num_high_claimant r =
            Spec.population (Spec.high_claimant deductible cc_days) teacher_days).
  { unfold r. rewrite results_num_high_claimant. apply tier_population.
    apply high_claimant_proper. }
  assert (Htotal : RatingEngineAgentLLM.total_teachers r =
            Z.of_nat (length (Spec.employees teacher_days))).
  { unfold r. rewrite results_total_teachers. unfold size.
    rewrite <- (Permutation_length (groupby_sum_employees teacher_days)).
    by rewrite length_fmap. }
  split_and!; try done.
  - intros d. by apply one_tier.
  - rewrite Hbelow, Hrange, Hhigh, Htotal. unfold Spec.population.
    rewrite <- !Nat2Z.inj_add. f_equal.
    apply filter_length_partition. intros e. by apply one_tier.
Qed.

Lemma tiers_partition_witness :
  let r := RatingEngineAgentLLM.calculate_with_reasoning Examples.four_teachers
             20 60 150 0.15 0.15 None in
  let m := RatingEngineAgent.calculate_coverage_metrics Examples.four_teachers
             20 60 150 in
  (forall d : Q,
     Z.b2z (Spec.below_deductible 20 d) +
     Z.b2z (Spec.coverage_range 20 60 d) +
     Z.b2z (Spec.high_claimant 20 60 d) = 1) /\
  RatingEngineAgentLLM.below_deductible_count r =
    Spec.population (Spec.below_deductible 20) Examples.four_teachers /\
  RatingEngineAgentLLM.num_staff_cc_range r =
    Spec.population (Spec.coverage_range 20 60) Examples.four_teachers /\
  RatingEngineAgentLLM.num_high_claimant r =
    Spec.population (Spec.high_claimant 20 60) Examples.four_teachers /\
  RatingEngineAgent.num_staff_cc_range m = RatingEngineAgentLLM.num_staff_cc_range r /\
  RatingEngineAgent.num_high_claimant m = RatingEngineAgentLLM.num_high_claimant r /\
  RatingEngineAgentLLM.total_teachers r =
    Z.of_nat (length (Spec.employees Examples.four_teachers)) /\
  RatingEngineAgentLLM.below_deductible_count r +
  RatingEngineAgentLLM.num_staff_cc_range r +
  RatingEngineAgentLLM.num_high_claimant r = RatingEngineAgentLLM.total_teachers r.
Proof.
  apply (tiers_partition Examples.four_teachers 20 60 150 0.15 0.15 None). lia.
Defined.




(** ** Coverage cost *)

(** The coverage cost of [calculate_with_reasoning], whatever the table and
    the parameters: cost per day times the sum, over the employees whose
    total [d] is above the deductible and at most the ceiling, of
    [min (d - deductible) coverage]. *)
Lemma coverage_cost_range_only teacher_days deductible cc_days cost a b approach :
  (RatingEngineAgentLLM.replacement_cost_cc
     (RatingEngineAgentLLM.calculate_with_reasoning teacher_days deductible cc_days
        cost a b approach) ==
   Spec.coverage_cost cost deductible cc_days teacher_days)%Q.
Proof. apply results_coverage_cost. Qed.

(** What [calculate_coverage_metrics] charges instead: the whole totals of
    the employees in the coverage range. *)
Lemma legacy_coverage_cost teacher_days deductible cc_days cost :
  RatingEngineAgent.replacement_cost_cc
    (RatingEngineAgent.calculate_coverage_metrics teacher_days deductible cc_days cost) =
  (cost * sum (where_ (Spec.coverage_range deductible cc_days)
                 (groupby_sum teacher_days)))%Q.
Proof. reflexivity. Qed.

(** C1 on the four employees of the validation scripts (15, 50, 75 and 100
    days, deductible 20, coverage 60, 150 a day): the days to charge are
    30 + 55 = 85 and the coverage cost 12750, which is what
    [calculate_with_reasoning] returns;  [calculate_coverage_metrics]
    counts 50 + 75 = 125 days and returns 18750. *)
Theorem legacy_engine_charges_full_totals :
  (Spec.coverage_cost 150 20 60 Examples.four_teachers == 12750)%Q /\
  (RatingEngineAgentLLM.replacement_cost_cc
     (RatingEngineAgentLLM.process Examples.four_teachers 20 60 150 0.15 0.15)
   == 12750)%Q /\
  (RatingEngineAgent.total_cc_days
     (RatingEngineAgent.calculate_coverage_metrics Examples.four_teachers 20 60 150)
   == 125)%Q /\
  (RatingEngineAgent.replacement_cost_cc
     (RatingEngineAgent.calculate_coverage_metrics Examples.four_teachers 20 60 150)
   == 18750)%Q /\
  ~ (RatingEngineAgent.replacement_cost_cc
       (RatingEngineAgent.calculate_coverage_metrics Examples.four_teachers 20 60 150)
     == Spec.coverage_cost 150 20 60 Examples.four_teachers)%Q.
Proof. repeat split; vm_compute; congruence. Qed.

(** The hand-computed scenario of the validation scripts. *)
Example validation_scenario :
  let r := RatingEngineAgentLLM.process Examples.four_teachers 20 60 150 0.15 0.15 in
  RatingEngineAgentLLM.num_staff_cc_range r = 2 /\
  (RatingEngineAgentLLM.total_cc_days r == 85)%Q /\
  (RatingEngineAgentLLM.replacement_cost_cc r == 12750)%Q /\
  RatingEngineAgentLLM.num_high_claimant r = 1 /\
  (RatingEngineAgentLLM.excess_days r == 20)%Q /\
  (RatingEngineAgentLLM.high_claimant_cost r == 3000)%Q /\
  (RatingEngineAgentLLM.ark_commission r == 1912.5)%Q /\
  (RatingEngineAgentLLM.abcover_commission r == 1912.5)%Q /\
  (RatingEngineAgentLLM.total_premium r == 16575)%Q.
Proof. repeat split; vm_compute; reflexivity. Qed.

(** * Further properties *)

(** ** Validation *)

Lemma count_zero {A} (p : A -> bool) (l : list A) :
  DataCleaningAgentLLM.count p l = 0 -> forall x, x ∈ l -> p x = false.
Proof.
  unfold DataCleaningAgentLLM.count. intros H x Hx.
  destruct (p x) eqn:Hp; [| reflexivity]. exfalso.
  assert (Hin : x ∈ List.filter p l).
  { apply list_elem_of_In, filter_In. split; [by apply list_elem_of_In | done]. }
  destruct (List.filter p l); [by apply elem_of_nil in Hin | cbn in H; lia].
Qed.

Lemma count_nonneg {A} (p : A -> bool) (l : list A) :
  0 <= DataCleaningAgentLLM.count p l.
Proof. unfold DataCleaningAgentLLM.count. lia. Qed.

Lemma has_column_select mask df col :
  has_column (select mask df) col = has_column df col.
Proof. reflexivity. Qed.

Lemma has_column_assign col f df col' :
  has_column df col' = true -> has_column (assign col f df) col' = true.
Proof.
  unfold assign. cbn [columns]. intros H.
  destruct (has_column df col); unfold has_column in *; cbn [columns]; [exact H |].
  apply bool_decide_eq_true. apply bool_decide_eq_true in H.
  apply elem_of_app. by left.
Qed.

Lemma columns_assign_present col f df :
  has_column df col = true -> columns (assign col f df) = columns df.
Proof. intros H. unfold assign. cbn [columns]. by rewrite H. Qed.

Lemma coerced_timestamp to_datetime (r : row) :
  DataCleaningAgentLLM.coerced (DataCleaningAgentLLM.as_timestamp to_datetime)
    Ts "Date" r = NaN \/
  exists t, DataCleaningAgentLLM.coerced (DataCleaningAgentLLM.as_timestamp to_datetime)
              Ts "Date" r = Ts t.
Proof.
  unfold DataCleaningAgentLLM.coerced.
  destruct (r !! "Date") as [c |]; [| by left].
  destruct (DataCleaningAgentLLM.as_timestamp to_datetime c) as [t |]; [right | left];
    eauto.
Qed.

(** The rows of the table once the ['Date'] column has been converted and
    the rows without a date removed. *)
Lemma dated_rows to_datetime df (r : row) :
  let dated := assign "Date"
                 (DataCleaningAgentLLM.coerced
                    (DataCleaningAgentLLM.as_timestamp to_datetime) Ts "Date") df in
  let invalid_dates := DataCleaningAgentLLM.count (fun r => isna (r !! "Date"))
                         (rows dated) in
  r ∈ rows (if 0 <? invalid_dates
            then select (fun r => negb (isna (r !! "Date"))) dated else dated) ->
  exists t, r !! "Date" = Some (Ts t).
Proof.
  intros dated invalid_dates Hr.
  assert (Hdated : r ∈ rows dated /\ isna (r !! "Date") = false).
  { destruct (0 <? invalid_dates) eqn:Hpos.
    - apply elem_of_select in Hr as [? Hna]. by apply negb_true_iff in Hna.
    - split; [exact Hr |].
      apply (count_zero (fun r : row => isna (r !! "Date")) (rows dated));
        [| exact Hr].
      pose proof (count_nonneg (fun r : row => isna (r !! "Date")) (rows dated)) as H.
      apply Z.ltb_ge in Hpos. fold invalid_dates in H |- *. lia. }
  destruct Hdated as [Hin Hna].
  unfold dated, assign in Hin. cbn [rows] in Hin.
  apply list_elem_of_fmap in Hin as (r0 & -> & _).
  rewrite lookup_insert_eq in Hna |- *.
  destruct (coerced_timestamp to_datetime r0) as [E | [t E]]; rewrite E in *;
    [discriminate | eauto].
Qed.


Lemma validate_stages coerce to_datetime df table report :
  DataCleaningAgentLLM.validate_data_format coerce to_datetime df =
    Returned (table, report) ->
  table = Validation.convert_durations coerce
            (Validation.convert_dates to_datetime (Validation.drop_empty_rows df)) /\
  DataCleaningAgentLLM.final_rows report = len table /\
  DataCleaningAgentLLM.rows_removed report = len df - len table.
Proof.
  unfold DataCleaningAgentLLM.validate_data_format. cbv zeta.
  intros [= <- <-]. cbn [DataCleaningAgentLLM.final_rows DataCleaningAgentLLM.rows_removed].
  split; [| split; reflexivity].
  unfold Validation.convert_durations, Validation.convert_dates,
    Validation.drop_empty_rows, DataSelectionAgent.empty.
  change (@DataSelectionAgent.truthy) with (@DataCleaningAgentLLM.truthy).
  set (df1 := if _ : bool then df else select _ df).
  destruct (has_column df1 "Date") eqn:Hdate; reflexivity.
Qed.

Lemma drop_empty_rows_len df : len (Validation.drop_empty_rows df) <= len df.
Proof.
  unfold Validation.drop_empty_rows.
  destruct (DataSelectionAgent.empty df); [lia | apply len_select_le].
Qed.

Lemma convert_dates_len to_datetime df :
  len (Validation.convert_dates to_datetime df) <= len df.
Proof.
  unfold Validation.convert_dates.
  destruct (has_column df "Date"); [| lia].
  destruct (0 <? _).
  - etransitivity; [apply len_select_le |]. rewrite len_assign. lia.
  - rewrite len_assign. lia.
Qed.

Lemma convert_durations_len coerce df :
  len (Validation.convert_durations coerce df) = len df.
Proof.
  unfold Validation.convert_durations.
  destruct (has_column df "Duration"); [apply len_assign | reflexivity].
Qed.

Lemma llm_rule1_len df flag : len (DataCleaningAgentLLM.apply_rule1 df flag) <= len df.
Proof.
  unfold DataCleaningAgentLLM.apply_rule1.
  destruct (negb flag); [lia |]. destruct (_ && _); [apply len_select_le | lia].
Qed.

Lemma llm_rule2_len df types : len (DataCleaningAgentLLM.apply_rule2 df types) <= len df.
Proof.
  unfold DataCleaningAgentLLM.apply_rule2.
  destruct (_ && _); [apply len_select_le | lia].
Qed.

Lemma llm_rule3_len to_datetime df flag :
  len (DataCleaningAgentLLM.apply_rule3 to_datetime df flag) <= len df.
Proof.
  unfold DataCleaningAgentLLM.apply_rule3.
  destruct (negb flag); [lia |]. destruct (_ || _); [lia | apply len_select_le].
Qed.

Lemma llm_days_len coerce df :
  len (DataCleaningAgentLLM.calculate_absence_days coerce df) = len df.
Proof.
  unfold DataCleaningAgentLLM.calculate_absence_days.
  destruct (negb _); [reflexivity | apply len_assign].
Qed.

(** The stages of [process]: what it returns, named. *)
Lemma llm_process_stages coerce to_datetime rules ctx df cleaned stats :
  DataCleaningAgentLLM.process coerce to_datetime rules ctx df =
    Returned (cleaned, stats) ->
  exists df0 df1 df2 df3 flag1 flag3,
    df0 = Validation.convert_durations coerce
            (Validation.convert_dates to_datetime (Validation.drop_empty_rows df)) /\
    df1 = DataCleaningAgentLLM.apply_rule1 df0 flag1 /\
    flag1 = default true (DataCleaningAgentLLM.remove_unfilled_no_substitute rules) /\
    (df2 = df1 \/ exists types, df2 = DataCleaningAgentLLM.apply_rule2 df1 types) /\
    df3 = DataCleaningAgentLLM.apply_rule3 to_datetime df2 flag3 /\
    (has_column df2 "School Year" && has_column df2 "Date" = true -> flag3 = true) /\
    cleaned = DataCleaningAgentLLM.calculate_absence_days coerce df3 /\
    DataCleaningAgentLLM.original_rows stats = len df /\
    DataCleaningAgentLLM.after_validation stats = len df0 /\
    DataCleaningAgentLLM.after_rule1 stats = len df1 /\
    DataCleaningAgentLLM.after_rule2 stats = len df2 /\
    DataCleaningAgentLLM.after_rule3 stats = len df3 /\
    DataCleaningAgentLLM.stats_final_rows stats = len cleaned /\
    DataCleaningAgentLLM.stats_rows_removed stats = len df - len cleaned /\
    DataCleaningAgentLLM.rows_removed (DataCleaningAgentLLM.validation_report stats) =
      len df - len df0.
Proof.
  unfold DataCleaningAgentLLM.process.
  destruct (DataCleaningAgentLLM.validate_data_format coerce to_datetime df)
    as [[df0 report] | e] eqn:Hv; [| discriminate].
  apply validate_stages in Hv as (Hdf0 & _ & Hremoved).
  cbn [bind]. cbv zeta. intros [= <- <-].
  cbn [DataCleaningAgentLLM.original_rows DataCleaningAgentLLM.after_validation
       DataCleaningAgentLLM.after_rule1 DataCleaningAgentLLM.after_rule2
       DataCleaningAgentLLM.after_rule3 DataCleaningAgentLLM.stats_final_rows
       DataCleaningAgentLLM.stats_rows_removed DataCleaningAgentLLM.validation_report].
  pose (flag1 := default true (DataCleaningAgentLLM.remove_unfilled_no_substitute rules)).
  pose (df1 := DataCleaningAgentLLM.apply_rule1 df0 flag1).
  pose (skip := match ctx with
                | Some c => DataCleaningAgentLLM.user_already_filtered_employee_types c
                | None => false
                end &&
                DataCleaningAgentLLM.truthy
                  (default [] (ctx ≫= DataCleaningAgentLLM.user_selected_employee_types))).
  pose (df2 := if skip then df1
               else DataCleaningAgentLLM.apply_rule2 df1
                      (default ["Teacher"; "Teacher Music"; "Teacher SpecEd"]
                         (DataCleaningAgentLLM.employee_types_to_keep rules))).
  pose (flag3 := if has_column df2 "School Year" && has_column df2 "Date" then true
                 else default true (DataCleaningAgentLLM.validate_school_year_dates rules)).
  pose (df3 := DataCleaningAgentLLM.apply_rule3 to_datetime df2 flag3).
  exists df0, df1, df2, df3, flag1, flag3.
  split_and!; try reflexivity; try assumption.
  - unfold df2. destruct skip; [by left | right; eauto].
  - unfold flag3. intros ->. reflexivity.
Qed.

(** In [DataCleaningAgentLLM.process] the row count never grows from one
    stage to the next, the day computation leaves it as it is, and the
    statistics are the counts: [rows_removed] is the difference between the
    input and the cleaned table, and the report of the validation holds
    what validation removed. *)
Theorem llm_process_row_counts coerce to_datetime rules ctx df cleaned stats :
  DataCleaningAgentLLM.process coerce to_datetime rules ctx df =
    Returned (cleaned, stats) ->
  DataCleaningAgentLLM.original_rows stats = len df /\
  DataCleaningAgentLLM.after_validation stats <= DataCleaningAgentLLM.original_rows stats /\
  DataCleaningAgentLLM.after_rule1 stats <= DataCleaningAgentLLM.after_validation stats /\
  DataCleaningAgentLLM.after_rule2 stats <= DataCleaningAgentLLM.after_rule1 stats /\
  DataCleaningAgentLLM.after_rule3 stats <= DataCleaningAgentLLM.after_rule2 stats /\
  DataCleaningAgentLLM.stats_final_rows stats = DataCleaningAgentLLM.after_rule3 stats /\
  DataCleaningAgentLLM.stats_final_rows stats = len cleaned /\
  DataCleaningAgentLLM.stats_rows_removed stats =
    DataCleaningAgentLLM.original_rows stats - DataCleaningAgentLLM.stats_final_rows stats /\
  DataCleaningAgentLLM.rows_removed (DataCleaningAgentLLM.validation_report stats) =
    DataCleaningAgentLLM.original_rows stats - DataCleaningAgentLLM.after_validation stats.
Proof.
  intros (df0 & df1 & df2 & df3 & flag1 & flag3 & H0 & H1 & _ & H2 & H3 & _ & Hc &
          -> & -> & -> & -> & -> & -> & -> & ->)%llm_process_stages.
  assert (len df0 <= len df).
  { rewrite H0, convert_durations_len.
    etransitivity; [apply convert_dates_len | apply drop_empty_rows_len]. }
  assert (len df1 <= len df0) by (rewrite H1; apply llm_rule1_len).
  assert (len df2 <= len df1).
  { destruct H2 as [-> | [types ->]]; [lia | apply llm_rule2_len]. }
  assert (len df3 <= len df2) by (rewrite H3; apply llm_rule3_len).
  assert (len cleaned = len df3) by (rewrite Hc; apply llm_days_len).
  lia.
Qed.

Lemma columns_drop_empty_rows df :
  columns (Validation.drop_empty_rows df) = columns df.
Proof. unfold Validation.drop_empty_rows. by destruct (DataSelectionAgent.empty df). Qed.

Lemma has_column_convert_dates to_datetime df col :
  has_column df col = true ->
  has_column (Validation.convert_dates to_datetime df) col = true.
Proof.
  intros H. unfold Validation.convert_dates.
  destruct (has_column df "Date"); [| exact H].
  destruct (0 <? _); [rewrite has_column_select |]; by apply has_column_assign.
Qed.

Lemma has_column_convert_durations coerce df col :
  has_column df col = true ->
  has_column (Validation.convert_durations coerce df) col = true.
Proof.
  intros H. unfold Validation.convert_durations.
  destruct (has_column df "Duration"); [by apply has_column_assign | exact H].
Qed.

Lemma has_column_staged coerce to_datetime df col :
  has_column df col = true ->
  has_column (Validation.convert_durations coerce
                (Validation.convert_dates to_datetime (Validation.drop_empty_rows df)))
             col = true.
Proof.
  intros H. apply has_column_convert_durations, has_column_convert_dates.
  unfold has_column. by rewrite columns_drop_empty_rows.
Qed.

(** Every row that leaves the three stages has a timestamp as its date. *)
Lemma staged_dates_are_timestamps coerce to_datetime df (r : row) :
  has_column df "Date" = true ->
  r ∈ rows (Validation.convert_durations coerce
              (Validation.convert_dates to_datetime (Validation.drop_empty_rows df))) ->
  exists t, r !! "Date" = Some (Ts t).
Proof.
  intros Hdate Hr.
  set (df1 := Validation.drop_empty_rows df) in *.
  assert (Hdate1 : has_column df1 "Date" = true).
  { unfold has_column, df1. by rewrite columns_drop_empty_rows. }
  assert (Hr2 : exists r2, r2 ∈ rows (Validation.convert_dates to_datetime df1) /\
                           r !! "Date" = r2 !! "Date").
  { unfold Validation.convert_durations in Hr.
    destruct (has_column _ "Duration"); [| by exists r].
    unfold assign in Hr. cbn [rows] in Hr.
    apply list_elem_of_fmap in Hr as (r2 & -> & Hr2).
    exists r2. split; [done |]. by rewrite lookup_insert_ne. }
  destruct Hr2 as (r2 & Hr2 & ->).
  unfold Validation.convert_dates in Hr2. rewrite Hdate1 in Hr2.
  by apply (dated_rows to_datetime df1 r2).
Qed.

(** After validation every row has a timestamp as its date: a table that
    has the ['Date'] column comes out with that column converted and
    without the rows whose date did not convert. *)
Theorem validated_dates_are_timestamps coerce to_datetime df table report (r : row) :
  DataCleaningAgentLLM.validate_data_format coerce to_datetime df =
    Returned (table, report) ->
  has_column df "Date" = true ->
  r ∈ rows table ->
  exists t, r !! "Date" = Some (Ts t).
Proof.
  intros (-> & _)%validate_stages Hdate Hr.
  by apply (staged_dates_are_timestamps coerce to_datetime df).
Qed.

Lemma validated_dates_are_timestamps_witness :
  exists table report,
    DataCleaningAgentLLM.validate_data_format Examples.coerce_nothing
      Examples.parse_no_date Samples.absences = Returned (table, report) /\
    len table = 3 /\
    Forall (fun r : row => exists t, r !! "Date" = Some (Ts t)) (rows table).
Proof.
  eexists _, _. split; [vm_compute; reflexivity |]. split; [vm_compute; reflexivity |].
  apply Forall_forall. intros r Hr.
  eapply (validated_dates_are_timestamps Examples.coerce_nothing
            Examples.parse_no_date Samples.absences).
  - vm_compute. reflexivity.
  - vm_compute. reflexivity.
  - exact Hr.
Defined.

Lemma llm_process_row_counts_witness :
  exists cleaned stats,
    DataCleaningAgentLLM.process Examples.coerce_nothing Examples.parse_no_date
      Examples.no_rules None Samples.absences = Returned (cleaned, stats) /\
    (DataCleaningAgentLLM.original_rows stats = len Samples.absences /\
     DataCleaningAgentLLM.after_validation stats <=
       DataCleaningAgentLLM.original_rows stats /\
     DataCleaningAgentLLM.after_rule1 stats <=
       DataCleaningAgentLLM.after_validation stats /\
     DataCleaningAgentLLM.after_rule2 stats <= DataCleaningAgentLLM.after_rule1 stats /\
     DataCleaningAgentLLM.after_rule3 stats <= DataCleaningAgentLLM.after_rule2 stats /\
     DataCleaningAgentLLM.stats_final_rows stats =
       DataCleaningAgentLLM.after_rule3 stats /\
     DataCleaningAgentLLM.stats_final_rows stats = len cleaned /\
     DataCleaningAgentLLM.stats_rows_removed stats =
       DataCleaningAgentLLM.original_rows stats -
       DataCleaningAgentLLM.stats_final_rows stats /\
     DataCleaningAgentLLM.rows_removed (DataCleaningAgentLLM.validation_report stats) =
       DataCleaningAgentLLM.original_rows stats -
       DataCleaningAgentLLM.after_validation stats).
Proof.
  eexists _, _. split; [vm_compute; reflexivity |].
  apply (llm_process_row_counts Examples.coerce_nothing Examples.parse_no_date
           Examples.no_rules None Samples.absences).
  vm_compute. reflexivity.
Defined.

(** ** The rows of the cleaned table *)

Lemma llm_rule1_rows df flag (r : row) :
  r ∈ rows (DataCleaningAgentLLM.apply_rule1 df flag) ->
  r ∈ rows df /\
  (flag = true -> has_column df "Filled" = true ->
   has_column df "Needs Substitute" = true ->
   Tiers.unfilled_no_substitute r = false).
Proof.
  unfold DataCleaningAgentLLM.apply_rule1. destruct flag; cbn [negb].
  - destruct (has_column df "Filled"), (has_column df "Needs Substitute"); cbn [andb];
      try (intros Hr; split; [exact Hr | intros; discriminate]).
    intros [Hr Hmask]%elem_of_select. split; [exact Hr |].
    intros _ _ _. by apply negb_true_iff in Hmask.
  - intros Hr. split; [exact Hr | discriminate].
Qed.

Lemma llm_rule2_rows df types (r : row) :
  r ∈ rows (DataCleaningAgentLLM.apply_rule2 df types) -> r ∈ rows df.
Proof.
  unfold DataCleaningAgentLLM.apply_rule2.
  destruct (_ && _); [by intros [? _]%elem_of_select | done].
Qed.

Lemma llm_rule3_rows to_datetime df flag (r : row) :
  r ∈ rows (DataCleaningAgentLLM.apply_rule3 to_datetime df flag) ->
  r ∈ rows df /\
  (flag = true -> has_column df "School Year" = true -> has_column df "Date" = true ->
   DataCleaningAgentLLM.rule3_valid to_datetime r = true).
Proof.
  unfold DataCleaningAgentLLM.apply_rule3. destruct flag; cbn [negb].
  - destruct (has_column df "School Year"), (has_column df "Date"); cbn [negb orb];
      try (intros Hr; split; [exact Hr | intros; discriminate]).
    intros [Hr Hmask]%elem_of_select. by split.
  - intros Hr. split; [exact Hr | discriminate].
Qed.

Lemma llm_rule1_columns df flag :
  columns (DataCleaningAgentLLM.apply_rule1 df flag) = columns df.
Proof.
  unfold DataCleaningAgentLLM.apply_rule1.
  destruct (negb flag); [reflexivity |]. by destruct (_ && _).
Qed.

Lemma llm_rule2_columns df types :
  columns (DataCleaningAgentLLM.apply_rule2 df types) = columns df.
Proof. unfold DataCleaningAgentLLM.apply_rule2. by destruct (_ && _). Qed.

Lemma llm_rule3_columns to_datetime df flag :
  columns (DataCleaningAgentLLM.apply_rule3 to_datetime df flag) = columns df.
Proof.
  unfold DataCleaningAgentLLM.apply_rule3.
  destruct (negb flag); [reflexivity |]. by destruct (_ || _).
Qed.

(** A row of the table with its absence days comes from a row of the
    table before, which it equals on every other column. *)
Lemma llm_days_rows coerce df (r : row) :
  r ∈ rows (DataCleaningAgentLLM.calculate_absence_days coerce df) ->
  exists r0, r0 ∈ rows df /\
    (forall col, col <> "Absence_Days" -> r !! col = r0 !! col) /\
    (has_column df "Absence Type" = true ->
     r !! "Absence_Days" = Some (Num (DataCleaningAgentLLM.calculate_days coerce r0))).
Proof.
  unfold DataCleaningAgentLLM.calculate_absence_days.
  destruct (has_column df "Absence Type"); cbn [negb].
  - unfold assign. cbn [rows]. intros (r0 & -> & Hr0)%list_elem_of_fmap.
    exists r0. split_and!; [done | |].
    + intros col Hne. by rewrite lookup_insert_ne.
    + intros _. apply lookup_insert_eq.
  - intros Hr. exists r. split_and!; [done | done | discriminate].
Qed.

(** A cleaned row comes from a validated row that passed the three rules
    as far as they were applied. *)
Lemma cleaned_row_origin coerce to_datetime rules ctx df cleaned stats (r : row) :
  DataCleaningAgentLLM.process coerce to_datetime rules ctx df =
    Returned (cleaned, stats) ->
  r ∈ rows cleaned ->
  exists r0,
    r0 ∈ rows (Validation.convert_durations coerce
                 (Validation.convert_dates to_datetime (Validation.drop_empty_rows df))) /\
    (forall col, col <> "Absence_Days" -> r !! col = r0 !! col) /\
    (has_column df "Absence Type" = true ->
     r !! "Absence_Days" = Some (Num (DataCleaningAgentLLM.calculate_days coerce r0))) /\
    (DataCleaningAgentLLM.remove_unfilled_no_substitute rules <> Some false ->
     has_column df "Filled" = true -> has_column df "Needs Substitute" = true ->
     Tiers.unfilled_no_substitute r0 = false) /\
    (has_column df "School Year" = true -> has_column df "Date" = true ->
     DataCleaningAgentLLM.rule3_valid to_datetime r0 = true).
Proof.
  intros (df0 & df1 & df2 & df3 & flag1 & flag3 & H0 & H1 & Hflag1 & H2 & H3 & Hflag3 &
          Hc & _)%llm_process_stages Hr.
  assert (Hcols0 : forall col, has_column df col = true -> has_column df0 col = true).
  { intros col. rewrite H0. apply has_column_staged. }
  assert (Hcols1 : columns df1 = columns df0) by (rewrite H1; apply llm_rule1_columns).
  assert (Hcols2 : columns df2 = columns df0).
  { destruct H2 as [-> | [types ->]]; [done | by rewrite llm_rule2_columns]. }
  assert (Hcols3 : columns df3 = columns df0).
  { by rewrite H3, llm_rule3_columns. }
  rewrite Hc in Hr. apply llm_days_rows in Hr as (r0 & Hr3 & Hsame & Hdays).
  rewrite H3 in Hr3. apply llm_rule3_rows in Hr3 as [Hr2 Hvalid].
  assert (Hr1 : r0 ∈ rows df1).
  { destruct H2 as [-> | [types ->]]; [done | by eapply llm_rule2_rows]. }
  rewrite H1 in Hr1. apply llm_rule1_rows in Hr1 as [Hr0 Hrule1].
  exists r0. rewrite <- H0. split_and!; [exact Hr0 | exact Hsame | | |].
  - intros Htype. apply Hdays. unfold has_column. rewrite Hcols3. by apply Hcols0.
  - intros Hon Hf Hn. apply Hrule1; [| by apply Hcols0 | by apply Hcols0].
    rewrite Hflag1. destruct (DataCleaningAgentLLM.remove_unfilled_no_substitute rules)
      as [[|] |]; done.
  - intros Hy Hd.
    assert (Hy2 : has_column df2 "School Year" = true).
    { unfold has_column. rewrite Hcols2. by apply Hcols0. }
    assert (Hd2 : has_column df2 "Date" = true).
    { unfold has_column. rewrite Hcols2. by apply Hcols0. }
    apply Hvalid; [| done | done]. apply Hflag3. by rewrite Hy2, Hd2.
Qed.

(** When the input has the ['Absence Type'] column, every row of the
    cleaned table carries in ['Absence_Days'] the day value of its own
    absence type and duration. *)
Theorem cleaned_rows_have_day_values coerce to_datetime rules ctx df cleaned stats
    (r : row) :
  DataCleaningAgentLLM.process coerce to_datetime rules ctx df =
    Returned (cleaned, stats) ->
  has_column df "Absence Type" = true ->
  r ∈ rows cleaned ->
  r !! "Absence_Days" =
    Some (Num (Spec.day_value_any_sign (Spec.absence_type r)
                 (Spec.duration_hours coerce r))).
Proof.
  intros Hp Htype Hr.
  destruct (cleaned_row_origin _ _ _ _ _ _ _ _ Hp Hr) as (r0 & _ & Hsame & Hdays & _).
  rewrite (Hdays Htype), llm_days_table.
  unfold Spec.absence_type, Spec.duration_hours.
  rewrite !Hsame by discriminate. reflexivity.
Qed.


(** Whatever the suggested rules say, in a table that has the
    ['School Year'] and ['Date'] columns every cleaned record whose school
    year reads as two years has a date between July 1 of the first and
    June 30 of the second. *)
Theorem cleaned_rows_in_period coerce to_datetime rules ctx df cleaned stats
    (r : row) (start_year end_year : Z) :
  DataCleaningAgentLLM.process coerce to_datetime rules ctx df =
    Returned (cleaned, stats) ->
  has_column df "School Year" = true ->
  has_column df "Date" = true ->
  r ∈ rows cleaned ->
  Spec.period_years (r !! "School Year") = Some (start_year, end_year) ->
  exists date,
    r !! "Date" = Some (Ts date) /\
    ts_leb (Spec.july_1 start_year) date = true /\
    ts_leb date (Spec.june_30 end_year) = true.
Proof.
  intros Hp Hy Hd Hr Hperiod.
  destruct (cleaned_row_origin _ _ _ _ _ _ _ _ Hp Hr)
    as (r0 & Hr0 & Hsame & _ & _ & Hvalid).
  specialize (Hvalid Hy Hd).
  destruct (staged_dates_are_timestamps coerce to_datetime df r0 Hd Hr0) as [date Hdate].
  exists date. rewrite !Hsame in * by discriminate. split; [exact Hdate |].
  unfold Spec.period_years in Hperiod.
  unfold DataCleaningAgentLLM.rule3_valid in Hvalid. rewrite Hdate in Hvalid.
  destruct (r0 !! "School Year") as [[| s | q | t] |]; try discriminate.
  cbn in Hperiod, Hvalid.
  destruct (DataCleaningAgentLLM.get_school_year_range s) as [[a b] |] eqn:Hrange;
    [| discriminate].
  apply school_year_range_some in Hrange
    as (p0 & p1 & sy & ey & _ & _ & _ & _ & _ & -> & ->).
  cbn in Hperiod. injection Hperiod as <- <-.
  by apply andb_true_iff in Hvalid.
Qed.

Lemma cleaned_rows_have_day_values_witness :
  exists cleaned stats (r : row),
    DataCleaningAgentLLM.process Examples.coerce_nothing Examples.parse_no_date
      Examples.no_rules None Samples.absences = Returned (cleaned, stats) /\
    rows cleaned = [r] /\
    r !! "Absence_Days" =
      Some (Num (Spec.day_value_any_sign (Spec.absence_type r)
                   (Spec.duration_hours Examples.coerce_nothing r))).
Proof.
  eexists _, _, _. split; [vm_compute; reflexivity |]. split; [reflexivity |].
  eapply (cleaned_rows_have_day_values Examples.coerce_nothing Examples.parse_no_date
            Examples.no_rules None Samples.absences).
  - vm_compute. reflexivity.
  - vm_compute. reflexivity.
  - apply list_elem_of_here.
Defined.


Lemma cleaned_rows_in_period_witness :
  exists cleaned stats (r : row),
    DataCleaningAgentLLM.process Examples.coerce_nothing Examples.parse_no_date
      (DataCleaningAgentLLM.mkRules None None (Some false)) None Samples.absences =
      Returned (cleaned, stats) /\
    rows cleaned = [r] /\
    exists date,
      r !! "Date" = Some (Ts date) /\
      ts_leb (Spec.july_1 2021) date = true /\
      ts_leb date (Spec.june_30 2022) = true.
Proof.
  eexists _, _, _. split; [vm_compute; reflexivity |]. split; [reflexivity |].
  eapply (cleaned_rows_in_period Examples.coerce_nothing Examples.parse_no_date
            (DataCleaningAgentLLM.mkRules None None (Some false)) None Samples.absences).
  - vm_compute. reflexivity.
  - vm_compute. reflexivity.
  - vm_compute. reflexivity.
  - apply list_elem_of_here.
  - vm_compute. reflexivity.
Defined.

(** ** The three rules in any order *)




(** ** Validating twice *)

Lemma filter_all {A} (p : A -> bool) (l : list A) :
  (forall x, x ∈ l -> p x = true) -> List.filter p l = l.
Proof.
  induction l as [| x l IH]; intros H; [reflexivity |]. cbn.
  rewrite (H x) by left. f_equal. apply IH. intros y Hy. apply H. by right.
Qed.

Lemma select_all mask df :
  (forall r, r ∈ rows df -> mask r = true) -> select mask df = df.
Proof.
  destruct df as [cols rs]. unfold select. cbn [columns rows]. intros H.
  f_equal. by apply filter_all.
Qed.

Lemma fmap_insert_same (col : string) (f : row -> cell) (rs : list row) :
  (forall r : row, r ∈ rs -> r !! col = Some (f r)) ->
  (fun r : row => <[col := f r]> r) <$> rs = rs.
Proof.
  induction rs as [| r l IH]; intros H; [reflexivity |]. cbn. f_equal.
  - apply insert_id, H. left.
  - apply IH. intros r' Hr'. apply H. by right.
Qed.

Lemma assign_same col f df :
  has_column df col = true ->
  (forall r : row, r ∈ rows df -> r !! col = Some (f r)) ->
  assign col f df = df.
Proof.
  destruct df as [cols rs]. unfold assign. intros Hcol H. rewrite Hcol.
  cbn [columns rows] in *. f_equal. by apply fmap_insert_same.
Qed.

Lemma count_none {A} (p : A -> bool) (l : list A) :
  (forall x, x ∈ l -> p x = false) -> DataCleaningAgentLLM.count p l = 0.
Proof.
  unfold DataCleaningAgentLLM.count.
  induction l as [| x l IH]; intros H; [reflexivity |]. cbn.
  rewrite (H x) by left. apply IH. intros y Hy. apply H. by right.
Qed.

(** The stages change nothing in a table whose dates are timestamps and
    whose durations are numbers or NA. *)
Lemma stages_fixed coerce to_datetime table :
  has_column table "Date" = true ->
  (forall r : row, r ∈ rows table -> exists t, r !! "Date" = Some (Ts t)) ->
  (has_column table "Duration" = true ->
   forall r : row, r ∈ rows table ->
     r !! "Duration" = Some NaN \/ exists q, r !! "Duration" = Some (Num q)) ->
  Validation.convert_durations coerce
    (Validation.convert_dates to_datetime (Validation.drop_empty_rows table)) = table.
Proof.
  intros Hdate Hts Hnum.
  assert (Hdrop : Validation.drop_empty_rows table = table).
  { unfold Validation.drop_empty_rows.
    destruct (DataSelectionAgent.empty table); [reflexivity |].
    apply select_all. intros r Hr. apply negb_true_iff.
    destruct (forallb _ _) eqn:Hall; [| reflexivity].
    rewrite forallb_forall in Hall.
    apply bool_decide_eq_true in Hdate. apply list_elem_of_In in Hdate.
    specialize (Hall _ Hdate). destruct (Hts r Hr) as [t Ht].
    rewrite Ht in Hall. discriminate. }
  assert (Hconv : Validation.convert_dates to_datetime table = table).
  { unfold Validation.convert_dates. rewrite Hdate.
    assert (Hsame : assign "Date"
                      (DataCleaningAgentLLM.coerced
                         (DataCleaningAgentLLM.as_timestamp to_datetime) Ts "Date")
                      table = table).
    { apply assign_same; [exact Hdate |]. intros r Hr.
      destruct (Hts r Hr) as [t Ht]. unfold DataCleaningAgentLLM.coerced.
      rewrite Ht. reflexivity. }
    rewrite Hsame. rewrite count_none; [reflexivity |].
    intros r Hr. destruct (Hts r Hr) as [t Ht]. by rewrite Ht. }
  rewrite Hdrop, Hconv. unfold Validation.convert_durations.
  destruct (has_column table "Duration") eqn:Hdur; [| reflexivity].
  apply assign_same; [exact Hdur |]. intros r Hr.
  unfold DataCleaningAgentLLM.coerced.
  destruct (Hnum eq_refl r Hr) as [E | [q E]]; rewrite E; reflexivity.
Qed.

Lemma staged_durations_are_numbers coerce to_datetime df (r : row) :
  has_column (Validation.convert_durations coerce
                (Validation.convert_dates to_datetime (Validation.drop_empty_rows df)))
             "Duration" = true ->
  r ∈ rows (Validation.convert_durations coerce
              (Validation.convert_dates to_datetime (Validation.drop_empty_rows df))) ->
  r !! "Duration" = Some NaN \/ exists q, r !! "Duration" = Some (Num q).
Proof.
  set (d := Validation.convert_dates to_datetime (Validation.drop_empty_rows df)).
  unfold Validation.convert_durations.
  destruct (has_column d "Duration") eqn:Hd.
  - intros _. unfold assign. cbn [rows]. intros (r0 & -> & _)%list_elem_of_fmap.
    rewrite lookup_insert_eq. unfold DataCleaningAgentLLM.coerced.
    destruct (r0 !! "Duration") as [c |]; [| by left].
    destruct (DataCleaningAgentLLM.to_numeric coerce c); [right | left]; eauto.
  - intros H. congruence.
Qed.

(** Validation settles in one pass on a table that has the ['Date']
    column: validating the validated table returns it unchanged and
    removes no row. *)
Theorem validation_is_idempotent coerce to_datetime df table report :
  DataCleaningAgentLLM.validate_data_format coerce to_datetime df =
    Returned (table, report) ->
  has_column df "Date" = true ->
  exists report',
    DataCleaningAgentLLM.validate_data_format coerce to_datetime table =
      Returned (table, report') /\
    DataCleaningAgentLLM.rows_removed report' = 0 /\
    DataCleaningAgentLLM.final_rows report' = DataCleaningAgentLLM.final_rows report.
Proof.
  intros Hv Hdate. apply validate_stages in Hv as (Htable & Hfinal & _).
  destruct (validate_returns coerce to_datetime table) as (table' & report' & Hv' & _).
  pose proof (validate_stages _ _ _ _ _ Hv') as (Htable' & Hfinal' & Hremoved').
  assert (Hfix : table' = table).
  { rewrite Htable'. apply stages_fixed.
    - rewrite Htable. by apply has_column_staged.
    - intros r Hr. rewrite Htable in Hr.
      by apply (staged_dates_are_timestamps coerce to_datetime df).
    - intros Hdur r Hr. rewrite Htable in Hdur, Hr.
      by apply (staged_durations_are_numbers coerce to_datetime df). }
  clear Htable'. subst table'. exists report'. split_and!; [exact Hv' | lia | lia].
Qed.

Lemma validation_is_idempotent_witness :
  exists table report report',
    DataCleaningAgentLLM.validate_data_format Examples.coerce_nothing
      Examples.parse_no_date Samples.absences = Returned (table, report) /\
    DataCleaningAgentLLM.validate_data_format Examples.coerce_nothing
      Examples.parse_no_date table = Returned (table, report') /\
    DataCleaningAgentLLM.rows_removed report' = 0 /\
    DataCleaningAgentLLM.final_rows report' = DataCleaningAgentLLM.final_rows report.
Proof.
  destruct (validation_is_idempotent Examples.coerce_nothing Examples.parse_no_date
              Samples.absences
              (Validation.convert_durations Examples.coerce_nothing
                 (Validation.convert_dates Examples.parse_no_date
                    (Validation.drop_empty_rows Samples.absences)))
              (DataCleaningAgentLLM.mkReport [] 1
                 ["Date"; "Duration"; "School Year"; "Employee Identifier"]
                 [DataCleaningAgentLLM.InvalidDates 1] [] 3))
    as (report' & H).
  - vm_compute. reflexivity.
  - vm_compute. reflexivity.
  - eexists _, _, report'. split; [vm_compute; reflexivity |]. exact H.
Defined.

(** ** What validation removes *)

Lemma count_filter {A} (p q : A -> bool) (l : list A) :
  DataCleaningAgentLLM.count q (List.filter p l) =
  DataCleaningAgentLLM.count (fun x => p x && q x) l.
Proof.
  unfold DataCleaningAgentLLM.count. f_equal.
  induction l as [| x l IH]; [reflexivity |]. cbn.
  destruct (p x); cbn; [destruct (q x); cbn |]; by rewrite IH.
Qed.

Lemma count_fmap {A B} (h : A -> B) (p : B -> bool) (l : list A) :
  DataCleaningAgentLLM.count p (h <$> l) =
  DataCleaningAgentLLM.count (fun x => p (h x)) l.
Proof. unfold DataCleaningAgentLLM.count. by rewrite filter_length_fmap. Qed.

Lemma count_ext {A} (p q : A -> bool) (l : list A) :
  (forall x, p x = q x) ->
  DataCleaningAgentLLM.count p l = DataCleaningAgentLLM.count q l.
Proof.
  intros H. unfold DataCleaningAgentLLM.count. f_equal.
  apply filter_length_ext. auto.
Qed.

Lemma count_all {A} (l : list A) :
  DataCleaningAgentLLM.count (fun _ => true) l = Z.of_nat (length l).
Proof.
  unfold DataCleaningAgentLLM.count. f_equal.
  induction l as [| x l IH]; [reflexivity | cbn; by rewrite IH].
Qed.

Lemma count_complement {A} (p : A -> bool) (l : list A) :
  DataCleaningAgentLLM.count p l + DataCleaningAgentLLM.count (fun x => negb (p x)) l =
  Z.of_nat (length l).
Proof.
  unfold DataCleaningAgentLLM.count. rewrite <- Nat2Z.inj_add. f_equal.
  induction l as [| x l IH]; [reflexivity |]. cbn.
  destruct (p x); cbn; lia.
Qed.

Lemma convert_dates_len_count to_datetime df :
  len (Validation.convert_dates to_datetime df) =
  DataCleaningAgentLLM.count
    (fun r : row =>
       negb (has_column df "Date") ||
       match r !! "Date" ≫= DataCleaningAgentLLM.as_timestamp to_datetime with
       | Some _ => true
       | None => false
       end) (rows df).
Proof.
  unfold Validation.convert_dates.
  destruct (has_column df "Date"); cbn [negb orb]; [| by rewrite count_all].
  set (dated := assign "Date" _ df).
  assert (Hnotna : len (select (fun r : row => negb (isna (r !! "Date"))) dated) =
            DataCleaningAgentLLM.count
              (fun r : row =>
                 match r !! "Date" ≫= DataCleaningAgentLLM.as_timestamp to_datetime with
                 | Some _ => true
                 | None => false
                 end) (rows df)).
  { unfold len, select, dated, assign. cbn [rows].
    change (Z.of_nat (length (List.filter ?p ?l))) with (DataCleaningAgentLLM.count p l).
    rewrite count_fmap. apply count_ext. intros r.
    rewrite lookup_insert_eq. unfold DataCleaningAgentLLM.coerced.
    destruct (r !! "Date") as [c |]; [| reflexivity]. cbn.
    destruct (DataCleaningAgentLLM.as_timestamp to_datetime c); reflexivity. }
  destruct (0 <? _) eqn:Hpos; [exact Hnotna |].
  rewrite <- Hnotna. apply Z.ltb_ge in Hpos.
  pose proof (count_nonneg (fun r : row => isna (r !! "Date")) (rows dated)) as Hge.
  pose proof (count_complement (fun r : row => isna (r !! "Date")) (rows dated)) as Hsum.
  unfold len, select. cbn [rows].
  change (Z.of_nat (length (List.filter ?p ?l))) with (DataCleaningAgentLLM.count p l).
  lia.
Qed.

(** Validation removes the rows that are entirely empty and the rows whose
    date does not convert, and no other: a negative duration, a malformed
    school year or a missing employee identifier is reported and the row
    stays.  The number of rows that come out is the number of rows of the
    input that [Validation.kept] describes. *)
Theorem validation_keeps_flagged_rows coerce to_datetime df table report :
  DataCleaningAgentLLM.validate_data_format coerce to_datetime df =
    Returned (table, report) ->
  len table = DataCleaningAgentLLM.count (Validation.kept to_datetime df) (rows df) /\
  DataCleaningAgentLLM.final_rows report = len table /\
  DataCleaningAgentLLM.rows_removed report =
    DataCleaningAgentLLM.count (fun r => negb (Validation.kept to_datetime df r))
      (rows df).
Proof.
  intros (-> & Hfinal & Hremoved)%validate_stages.
  assert (Hlen : len (Validation.convert_durations coerce
                        (Validation.convert_dates to_datetime
                           (Validation.drop_empty_rows df))) =
                 DataCleaningAgentLLM.count (Validation.kept to_datetime df) (rows df)).
  { rewrite convert_durations_len, convert_dates_len_count.
    assert (Hcol : has_column (Validation.drop_empty_rows df) "Date" =
                   has_column df "Date").
    { unfold has_column. by rewrite columns_drop_empty_rows. }
    rewrite Hcol. unfold Validation.drop_empty_rows, Validation.kept.
    destruct (DataSelectionAgent.empty df); cbn [orb andb]; [reflexivity |].
    unfold select. cbn [rows]. apply count_filter. }
  split_and!; [exact Hlen | exact Hfinal |].
  rewrite Hremoved, Hlen.
  pose proof (count_complement (Validation.kept to_datetime df) (rows df)).
  unfold len at 1. lia.
Qed.

Lemma validation_keeps_flagged_rows_witness :
  exists table report,
    DataCleaningAgentLLM.validate_data_format Examples.coerce_nothing
      Examples.parse_no_date Samples.absences = Returned (table, report) /\
    (len table =
       DataCleaningAgentLLM.count (Validation.kept Examples.parse_no_date Samples.absences)
         (rows Samples.absences) /\
     DataCleaningAgentLLM.final_rows report = len table /\
     DataCleaningAgentLLM.rows_removed report =
       DataCleaningAgentLLM.count
         (fun r => negb (Validation.kept Examples.parse_no_date Samples.absences r))
         (rows Samples.absences)).
Proof.
  eexists _, _. split; [vm_compute; reflexivity |].
  apply (validation_keeps_flagged_rows Examples.coerce_nothing Examples.parse_no_date
           Samples.absences).
  vm_compute. reflexivity.
Defined.

(** ** The cleaning node *)

(** The cleaning node leaves the employee types alone exactly when the
    user's filters carry a list of employee types that is not empty: rule 2
    is then not applied and the count after it is the count before it.
    With no list, or an empty one, rule 2 is applied. *)
Theorem user_selection_is_not_filtered_again coerce to_datetime rules df filters
    cleaned stats :
  LangGraphOrchestrator.clean_node coerce to_datetime rules (Some df) filters =
    Some (Returned (cleaned, stats)) ->
  DataCleaningAgentLLM.rule2_applied stats =
    negb (DataSelectionAgent.given (DataSelectionAgent.employee_type filters)) /\
  (DataSelectionAgent.given (DataSelectionAgent.employee_type filters) = true ->
   DataCleaningAgentLLM.after_rule2 stats = DataCleaningAgentLLM.after_rule1 stats).
Proof.
  unfold LangGraphOrchestrator.clean_node.
  destruct (negb (DataSelectionAgent.empty df)); [| discriminate].
  unfold DataCleaningAgentLLM.process.
  destruct (DataCleaningAgentLLM.validate_data_format coerce to_datetime df)
    as [[df0 report] | e]; [| discriminate].
  cbn [bind]. cbv zeta. intros [= <- <-].
  cbn [DataCleaningAgentLLM.rule2_applied DataCleaningAgentLLM.after_rule2
       DataCleaningAgentLLM.after_rule1].
  unfold LangGraphOrchestrator.blackboard_context. cbn.
  destruct (DataSelectionAgent.employee_type filters) as [[| t types] |]; cbn;
    split; try reflexivity; discriminate.
Qed.

Lemma user_selection_is_not_filtered_again_witness :
  exists cleaned stats,
    LangGraphOrchestrator.clean_node Examples.coerce_nothing Examples.parse_no_date
      Examples.no_rules (Some Samples.absences) Samples.custodian_filter =
      Some (Returned (cleaned, stats)) /\
    (DataCleaningAgentLLM.rule2_applied stats =
       negb (DataSelectionAgent.given
               (DataSelectionAgent.employee_type Samples.custodian_filter)) /\
     (DataSelectionAgent.given
        (DataSelectionAgent.employee_type Samples.custodian_filter) = true ->
      DataCleaningAgentLLM.after_rule2 stats = DataCleaningAgentLLM.after_rule1 stats)).
Proof.
  eexists _, _. split; [vm_compute; reflexivity |].
  eapply (user_selection_is_not_filtered_again Examples.coerce_nothing
           Examples.parse_no_date Examples.no_rules Samples.absences
           Samples.custodian_filter).
  vm_compute. reflexivity.
Defined.

(** ** More on the rating engine *)

Lemma sum_Qsum (s : Series) : sum s = Spec.Qsum snd s.
Proof. reflexivity. Qed.

Lemma Qsum_nonneg {A} (f : A -> Q) (l : list A) :
  (forall x, x ∈ l -> (0 <= f x)%Q) -> (0 <= Spec.Qsum f l)%Q.
Proof.
  unfold Spec.Qsum. induction l as [| x l IH]; intros H; cbn [fold_right]; [lra |].
  pose proof (H x ltac:(left)). assert (0 <= fold_right (fun x acc => f x + acc) 0 l)%Q.
  { apply IH. intros y Hy. apply H. by right. }
  lra.
Qed.

Lemma Qsum_bound {A} (f : A -> Q) (c : Q) (l : list A) :
  (forall x, x ∈ l -> (f x <= c)%Q) ->
  (Spec.Qsum f l <= c * inject_Z (Z.of_nat (length l)))%Q.
Proof.
  unfold Spec.Qsum. induction l as [| x l IH]; intros H; cbn [fold_right length].
  - change (inject_Z (Z.of_nat 0)) with 0%Q. lra.
  - pose proof (H x ltac:(left)).
    assert (fold_right (fun x acc => f x + acc) 0 l <=
            c * inject_Z (Z.of_nat (length l)))%Q.
    { apply IH. intros y Hy. apply H. by right. }
    rewrite Nat2Z.inj_succ, <- Z.add_1_r, inject_Z_plus.
    change (inject_Z 1) with 1%Q. lra.
Qed.

Lemma Qsum_shift {A} (f : A -> Q) (c : Q) (l : list A) :
  (Spec.Qsum f l ==
   Spec.Qsum (fun x => f x - c) l + c * inject_Z (Z.of_nat (length l)))%Q.
Proof.
  unfold Spec.Qsum. induction l as [| x l IH]; cbn [fold_right length].
  - change (inject_Z (Z.of_nat 0)) with 0%Q. lra.
  - rewrite Nat2Z.inj_succ, <- Z.add_1_r, inject_Z_plus.
    change (inject_Z 1) with 1%Q. rewrite IH. lra.
Qed.

Lemma in_where (tier : Q -> bool) (s : Series) (kv : string * Q) :
  kv ∈ where_ tier s <-> kv ∈ s /\ tier (snd kv) = true.
Proof. unfold where_. rewrite !list_elem_of_In. apply filter_In. Qed.

Section Excess.

Variable teacher_days : list TeacherDays.
Variables deductible cc_days : Z.
Variables replacement_cost ark_rate abcover_rate : Q.
Variable approach : option RatingEngineAgentLLM.Approach.

Let results := RatingEngineAgentLLM.calculate_with_reasoning teacher_days
                 deductible cc_days replacement_cost ark_rate abcover_rate approach.
Let metrics := RatingEngineAgent.calculate_coverage_metrics teacher_days
                 deductible cc_days replacement_cost.
Let high_claimant_staff :=
  where_ (Spec.high_claimant deductible cc_days) (groupby_sum teacher_days).
Let staff_in_cc_range :=
  where_ (Spec.coverage_range deductible cc_days) (groupby_sum teacher_days).

Lemma results_excess_days :
  RatingEngineAgentLLM.excess_days results =
  Spec.Qsum (fun kv => snd kv - inject_Z (deductible + cc_days))%Q high_claimant_staff.
Proof.
  unfold results, RatingEngineAgentLLM.calculate_with_reasoning. cbn.
  rewrite sum_Qsum, Qsum_fmap. reflexivity.
Qed.

Lemma metrics_excess_days :
  RatingEngineAgent.excess_days metrics = RatingEngineAgentLLM.excess_days results.
Proof. reflexivity. Qed.

Lemma excess_of_total (kv : string * Q) :
  kv ∈ groupby_sum teacher_days ->
  ((if Spec.high_claimant deductible cc_days (snd kv)
    then snd kv - inject_Z (deductible + cc_days) else 0) ==
   Tiers.excess_days deductible cc_days (Spec.total_of (fst kv) teacher_days))%Q.
Proof.
  destruct kv as [e d]. intros Hd%groupby_sum_total. cbn [fst snd].
  unfold Tiers.excess_days, Spec.coverage_ceiling.
  rewrite <- (high_claimant_proper _ _ _ _ Hd).
  destruct (Spec.high_claimant deductible cc_days d); [by rewrite Hd | reflexivity].
Qed.

Lemma results_total_excess :
  (RatingEngineAgentLLM.excess_days results ==
   Tiers.total_excess_days deductible cc_days teacher_days)%Q.
Proof.
  rewrite results_excess_days. unfold high_claimant_staff, where_.
  rewrite Qsum_filter. unfold Tiers.total_excess_days.
  rewrite <- (Qsum_Permutation _ _ _ (groupby_sum_employees teacher_days)).
  rewrite Qsum_fmap. apply Qsum_ext. intros kv Hkv. by apply excess_of_total.
Qed.

Lemma results_excess_nonneg : (0 <= RatingEngineAgentLLM.excess_days results)%Q.
Proof.
  rewrite results_excess_days. apply Qsum_nonneg.
  intros kv [_ Hhigh]%in_where. unfold Spec.high_claimant, Spec.coverage_ceiling in Hhigh.
  apply Qltb_lt in Hhigh. lra.
Qed.

(** In range, the cap does not bite: the days counted are the days above
    the deductible, more than none and at most the coverage. *)
Lemma days_in_range_exact (d : Q) :
  Spec.coverage_range deductible cc_days d = true ->
  let counted := Qmin (d - inject_Z deductible)
                   (inject_Z (deductible + cc_days - deductible)) in
  (counted == d - inject_Z deductible)%Q /\ (0 < counted)%Q /\
  (counted <= inject_Z cc_days)%Q.
Proof.
  intros Hrange counted. unfold counted.
  replace (deductible + cc_days - deductible) with cc_days by lia.
  unfold Spec.coverage_range, Spec.coverage_ceiling in Hrange.
  apply andb_true_iff in Hrange as [Hlo Hhi].
  apply Qltb_lt in Hlo. apply Qle_bool_iff in Hhi. rewrite inject_Z_plus in Hhi.
  destruct (Q.min_spec (d - inject_Z deductible) (inject_Z cc_days)) as [[? ->] | [? ->]];
    split_and!; lra.
Qed.

Lemma results_total_cc_days_exact :
  (RatingEngineAgentLLM.total_cc_days results ==
   Spec.Qsum (fun kv => snd kv - inject_Z deductible)%Q staff_in_cc_range)%Q.
Proof.
  unfold results. rewrite results_total_cc_days. apply Qsum_ext.
  intros kv [_ Hrange]%in_where. by apply days_in_range_exact.
Qed.

End Excess.

(** The excess days of both engines are the days beyond the ceiling of
    the employees above it, summed over the distinct employees; the cost of
    the high claimants is the cost per day times these days; the two
    engines return the same figures, which are never negative. *)
Theorem excess_days_beyond_ceiling teacher_days deductible cc_days cost a b approach :
  let r := RatingEngineAgentLLM.calculate_with_reasoning teacher_days
             deductible cc_days cost a b approach in
  let m := RatingEngineAgent.calculate_coverage_metrics teacher_days
             deductible cc_days cost in
  (RatingEngineAgentLLM.excess_days r ==
   Tiers.total_excess_days deductible cc_days teacher_days)%Q /\
  (RatingEngineAgentLLM.high_claimant_cost r ==
   cost * Tiers.total_excess_days deductible cc_days teacher_days)%Q /\
  RatingEngineAgent.excess_days m = RatingEngineAgentLLM.excess_days r /\
  RatingEngineAgent.high_claimant_cost m = RatingEngineAgentLLM.high_claimant_cost r /\
  (0 <= RatingEngineAgentLLM.excess_days r)%Q.
Proof.
  intros r m.
  pose proof (results_total_excess teacher_days deductible cc_days cost a b approach)
    as Hexcess.
  split_and!; [exact Hexcess | | reflexivity | reflexivity |
               apply results_excess_nonneg].
  change (RatingEngineAgentLLM.high_claimant_cost r)
    with (cost * RatingEngineAgentLLM.excess_days r)%Q.
  fold r in Hexcess. by rewrite Hexcess.
Qed.

(** Every employee listed in the coverage range is charged the days above
    the deductible, more than none and never more than the coverage. *)
Theorem chargeable_days_are_capped teacher_days deductible cc_days cost a b approach
    (detail : RatingEngineAgentLLM.Detail) :
  detail ∈ RatingEngineAgentLLM.cc_range_details
             (RatingEngineAgentLLM.calculate_with_reasoning teacher_days
                deductible cc_days cost a b approach) ->
  (RatingEngineAgentLLM.counted_days detail ==
   RatingEngineAgentLLM.detail_total_days detail - inject_Z deductible)%Q /\
  (0 < RatingEngineAgentLLM.counted_days detail)%Q /\
  (RatingEngineAgentLLM.counted_days detail <= inject_Z cc_days)%Q.
Proof.
  rewrite results_cc_range_details.
  intros (kv & -> & [_ Hrange]%in_where)%list_elem_of_fmap.
  cbn [RatingEngineAgentLLM.counted_days RatingEngineAgentLLM.detail_total_days].
  by apply days_in_range_exact.
Qed.

Lemma chargeable_days_are_capped_witness :
  exists detail,
    RatingEngineAgentLLM.cc_range_details
      (RatingEngineAgentLLM.calculate_with_reasoning Examples.eighty_days
         20 60 150 0.15 0.15 None) = [detail] /\
    (RatingEngineAgentLLM.counted_days detail ==
     RatingEngineAgentLLM.detail_total_days detail - inject_Z 20)%Q /\
    (0 < RatingEngineAgentLLM.counted_days detail)%Q /\
    (RatingEngineAgentLLM.counted_days detail <= inject_Z 60)%Q.
Proof.
  eexists. split; [vm_compute; reflexivity |].
  apply (chargeable_days_are_capped Examples.eighty_days 20 60 150 0.15 0.15 None).
  vm_compute. apply list_elem_of_here.
Defined.

(** The older engine charges, for each employee in the coverage range,
    the deductible on top of what [calculate_with_reasoning] charges: its
    days are the other's plus the deductible times the number of employees
    in range, and its cost is higher by the cost per day times as much. *)
Theorem legacy_engine_adds_the_deductible teacher_days deductible cc_days cost a b
    approach :
  let r := RatingEngineAgentLLM.calculate_with_reasoning teacher_days
             deductible cc_days cost a b approach in
  let m := RatingEngineAgent.calculate_coverage_metrics teacher_days
             deductible cc_days cost in
  (RatingEngineAgent.total_cc_days m ==
   RatingEngineAgentLLM.total_cc_days r +
   inject_Z deductible * inject_Z (RatingEngineAgentLLM.num_staff_cc_range r))%Q /\
  (RatingEngineAgent.replacement_cost_cc m ==
   RatingEngineAgentLLM.replacement_cost_cc r +
   cost * (inject_Z deductible * inject_Z (RatingEngineAgentLLM.num_staff_cc_range r)))%Q.
Proof.
  intros r m.
  assert (Hdays : (RatingEngineAgent.total_cc_days m ==
            RatingEngineAgentLLM.total_cc_days r +
            inject_Z deductible *
            inject_Z (RatingEngineAgentLLM.num_staff_cc_range r))%Q).
  { unfold r. rewrite results_total_cc_days_exact.
    change (RatingEngineAgent.total_cc_days m)
      with (sum (where_ (Spec.coverage_range deductible cc_days)
                   (groupby_sum teacher_days))).
    rewrite sum_Qsum. apply Qsum_shift. }
  split; [exact Hdays |].
  change (RatingEngineAgent.replacement_cost_cc m)
    with (cost * RatingEngineAgent.total_cc_days m)%Q.
  change (RatingEngineAgentLLM.replacement_cost_cc r)
    with (cost * RatingEngineAgentLLM.total_cc_days r)%Q.
  rewrite Hdays. lra.
Qed.

(** The days charged in the coverage range are never negative and never
    more than the coverage times the number of employees in range; with a
    cost per day and commission rates that are not negative, neither the
    coverage cost, nor the cost of the high claimants, nor the total premium
    is negative. *)
Theorem premium_is_not_negative teacher_days deductible cc_days cost a b approach :
  (0 <= cost)%Q -> (0 <= a)%Q -> (0 <= b)%Q ->
  let r := RatingEngineAgentLLM.calculate_with_reasoning teacher_days
             deductible cc_days cost a b approach in
  (0 <= RatingEngineAgentLLM.total_cc_days r)%Q /\
  (RatingEngineAgentLLM.total_cc_days r <=
   inject_Z cc_days * inject_Z (RatingEngineAgentLLM.num_staff_cc_range r))%Q /\
  (0 <= RatingEngineAgentLLM.replacement_cost_cc r)%Q /\
  (0 <= RatingEngineAgentLLM.high_claimant_cost r)%Q /\
  (0 <= RatingEngineAgentLLM.total_premium r)%Q.
Proof.
  intros Hcost Ha Hb r.
  assert (Hlow : (0 <= RatingEngineAgentLLM.total_cc_days r)%Q).
  { unfold r. rewrite results_total_cc_days. apply Qsum_nonneg.
    intros kv [_ Hrange]%in_where.
    destruct (days_in_range_exact deductible cc_days (snd kv) Hrange) as (_ & ? & _).
    lra. }
  assert (Hhigh : (RatingEngineAgentLLM.total_cc_days r <=
            inject_Z cc_days * inject_Z (RatingEngineAgentLLM.num_staff_cc_range r))%Q).
  { unfold r. rewrite results_total_cc_days. apply Qsum_bound.
    intros kv [_ Hrange]%in_where.
    by destruct (days_in_range_exact deductible cc_days (snd kv) Hrange) as (_ & _ & ?). }
  pose proof (results_excess_nonneg teacher_days deductible cc_days cost a b approach)
    as Hexcess. fold r in Hexcess.
  assert (Hcc : (0 <= RatingEngineAgentLLM.replacement_cost_cc r)%Q).
  { change (RatingEngineAgentLLM.replacement_cost_cc r)
      with (cost * RatingEngineAgentLLM.total_cc_days r)%Q.
    by apply Qmult_le_0_compat. }
  split_and!; [exact Hlow | exact Hhigh | exact Hcc | |].
  - change (RatingEngineAgentLLM.high_claimant_cost r)
      with (cost * RatingEngineAgentLLM.excess_days r)%Q.
    by apply Qmult_le_0_compat.
  - change (RatingEngineAgentLLM.total_premium r)
      with (RatingEngineAgentLLM.replacement_cost_cc r +
            RatingEngineAgentLLM.replacement_cost_cc r * a +
            RatingEngineAgentLLM.replacement_cost_cc r * b)%Q.
    pose proof (Qmult_le_0_compat _ _ Hcc Ha).
    pose proof (Qmult_le_0_compat _ _ Hcc Hb). lra.
Qed.

Lemma premium_is_not_negative_witness :
  let r := RatingEngineAgentLLM.calculate_with_reasoning Examples.four_teachers
             20 60 150 0.15 0.15 None in
  (0 <= RatingEngineAgentLLM.total_cc_days r)%Q /\
  (RatingEngineAgentLLM.total_cc_days r <=
   inject_Z 60 * inject_Z (RatingEngineAgentLLM.num_staff_cc_range r))%Q /\
  (0 <= RatingEngineAgentLLM.replacement_cost_cc r)%Q /\
  (0 <= RatingEngineAgentLLM.high_claimant_cost r)%Q /\
  (0 <= RatingEngineAgentLLM.total_premium r)%Q.
Proof.
  apply (premium_is_not_negative Examples.four_teachers 20 60 150 0.15 0.15 None);
    vm_compute; discriminate.
Defined.

(** ** Tables with the same totals *)










(** ** Selecting columns and rows *)

Lemma unique_elem (seen selected : list string) (c : string) :
  c ∈ DataSelectionAgent.unique seen selected <-> c ∈ selected /\ c ∉ seen.
Proof.
  revert seen. induction selected as [| x l IH]; intros seen; cbn.
  - rewrite elem_of_nil. tauto.
  - case_bool_decide as Hx.
    + rewrite IH, elem_of_cons. split; [tauto |].
      intros [[-> | Hc] Hseen]; [contradiction | tauto].
    + rewrite !elem_of_cons, IH, elem_of_cons.
      destruct (decide (c = x)) as [-> | Hne]; [tauto |]. tauto.
Qed.

Lemma unique_NoDup (seen selected : list string) :
  NoDup (DataSelectionAgent.unique seen selected).
Proof.
  revert seen. induction selected as [| x l IH]; intros seen; cbn; [constructor |].
  case_bool_decide; [apply IH |]. constructor; [| apply IH].
  rewrite unique_elem, elem_of_cons. tauto.
Qed.

Lemma project_lookup (cols : list string) (r : row) (col : string) :
  filter (fun kv : string * cell => kv.1 ∈ cols) r !! col =
  if bool_decide (col ∈ cols) then r !! col else None.
Proof.
  case_bool_decide as Hcol.
  - destruct (r !! col) as [c |] eqn:E.
    + by apply map_lookup_filter_Some.
    + apply map_lookup_filter_None. left. exact E.
  - apply map_lookup_filter_None. right. intros c _. exact Hcol.
Qed.

Lemma missing_columns_elem df (selected : list string) (col : string) :
  col ∈ List.filter (fun col => negb (has_column df col)) selected <->
  col ∈ selected /\ has_column df col = false.
Proof. rewrite !list_elem_of_In, filter_In, negb_true_iff. reflexivity. Qed.

(** When a selected column is not in the table, nothing is selected: the
    table is returned as it came, with the list of the columns not found. *)
Theorem select_columns_all_or_nothing df (selected : list string) (col : string) :
  col ∈ selected ->
  has_column df col = false ->
  exists missing,
    DataSelectionAgent.select_columns df selected =
      (df, Some (DataSelectionAgent.ColumnsNotFound missing)) /\
    forall c, c ∈ missing <-> c ∈ selected /\ has_column df c = false.
Proof.
  intros Hsel Hcol. unfold DataSelectionAgent.select_columns. cbv zeta.
  set (missing := List.filter _ selected).
  assert (Hin : col ∈ missing) by (by apply missing_columns_elem).
  exists missing. split; [| intros c; apply missing_columns_elem].
  destruct missing; [by apply elem_of_nil in Hin | reflexivity].
Qed.

Lemma select_columns_all_or_nothing_witness :
  exists missing,
    DataSelectionAgent.select_columns Samples.absences ["Date"; "Hours"; "Date"] =
      (Samples.absences, Some (DataSelectionAgent.ColumnsNotFound missing)) /\
    forall c, c ∈ missing <->
              c ∈ ["Date"; "Hours"; "Date"] /\ has_column Samples.absences c = false.
Proof.
  apply (select_columns_all_or_nothing Samples.absences ["Date"; "Hours"; "Date"] "Hours").
  - apply elem_of_cons. right. apply list_elem_of_here.
  - vm_compute. reflexivity.
Defined.

Lemma select_columns_projects_rows df (selected : list string) out :
  DataSelectionAgent.select_columns df selected = (out, None) ->
  columns out = DataSelectionAgent.unique [] selected /\
  len out = len df /\ rows out <> [].
Proof.
  unfold DataSelectionAgent.select_columns. cbv zeta.
  destruct (DataSelectionAgent.truthy _); [discriminate |].
  destruct (DataSelectionAgent.empty _) eqn:Hempty; [discriminate |].
  intros [= <-]. split_and!; [reflexivity | |].
  - unfold len, DataSelectionAgent.project. cbn [rows]. by rewrite length_fmap.
  - unfold DataSelectionAgent.empty in Hempty.
    apply orb_false_iff in Hempty as [Hrows _].
    intros E. rewrite E in Hrows. discriminate.
Qed.

(** When the selection succeeds, the table that comes out has the
    selected columns, each once and in the order of their first mention,
    all of them columns of the input; it has as many rows as the input, at
    least one, and each row keeps its cells in the selected columns and has
    no other. *)
Theorem select_columns_projects df (selected : list string) out :
  DataSelectionAgent.select_columns df selected = (out, None) ->
  columns out = DataSelectionAgent.unique [] selected /\
  NoDup (columns out) /\
  (forall col, col ∈ columns out <-> col ∈ selected) /\
  (forall col, col ∈ selected -> has_column df col = true) /\
  length (rows out) = length (rows df) /\
  rows out <> [] /\
  Forall2 (fun r r' : row =>
             forall col, r' !! col = if bool_decide (col ∈ selected) then r !! col
                                     else None)
          (rows df) (rows out).
Proof.
  unfold DataSelectionAgent.select_columns. cbv zeta.
  destruct (List.filter _ selected) as [| m ms] eqn:Hmissing; cbn [DataSelectionAgent.truthy];
    [| discriminate].
  destruct (DataSelectionAgent.empty _) eqn:Hempty; [discriminate |].
  intros [= <-]. unfold DataSelectionAgent.project in *. cbn [columns rows] in *.
  assert (Hunique : forall col,
            col ∈ DataSelectionAgent.unique [] selected <-> col ∈ selected).
  { intros col. rewrite unique_elem, elem_of_nil. tauto. }
  split_and!.
  - reflexivity.
  - apply unique_NoDup.
  - exact Hunique.
  - intros col Hcol. destruct (has_column df col) eqn:Hhas; [reflexivity |].
    assert (Hin : col ∈ List.filter (fun col => negb (has_column df col)) selected)
      by (by apply missing_columns_elem).
    rewrite Hmissing in Hin. by apply elem_of_nil in Hin.
  - apply length_fmap.
  - unfold DataSelectionAgent.empty in Hempty. cbn [rows columns] in Hempty.
    apply orb_false_iff in Hempty as [Hrows _].
    intros E. rewrite E in Hrows. discriminate.
  - apply Forall2_fmap_r, Forall_Forall2_diag, Forall_forall. intros r _ col.
    rewrite project_lookup.
    by rewrite (bool_decide_ext _ _ (Hunique col)).
Qed.

Lemma select_columns_projects_witness :
  let selected := ["Employee Identifier"; "Date"; "Employee Identifier"] in
  let out := fst (DataSelectionAgent.select_columns Samples.absences selected) in
  columns out = ["Employee Identifier"; "Date"] /\
  length (rows out) = length (rows Samples.absences) /\
  Forall2 (fun r r' : row =>
             forall col,
               r' !! col = if bool_decide (col ∈ selected) then r !! col else None)
          (rows Samples.absences) (rows out).
Proof.
  intros selected out.
  destruct (select_columns_projects Samples.absences selected out)
    as (Hcols & _ & _ & _ & Hlen & _ & Hrows).
  - vm_compute. reflexivity.
  - split; [rewrite Hcols; vm_compute; reflexivity |]. split; [exact Hlen | exact Hrows].
Defined.

Lemma isin_stage (values : option (list string)) (col : string) df :
  let out := if DataSelectionAgent.given values && has_column df col
             then select (fun r => cell_isin (default [] values) (r !! col)) df
             else df in
  columns out = columns df /\ len out <= len df /\
  forall r : row, r ∈ rows out ->
    r ∈ rows df /\
    (DataSelectionAgent.given values = true -> has_column df col = true ->
     cell_isin (default [] values) (r !! col) = true).
Proof.
  intros out. unfold out.
  destruct (DataSelectionAgent.given values), (has_column df col); cbn [andb];
    try (split_and!; [reflexivity | lia | intros r Hr; split; [exact Hr | discriminate]]).
  split_and!; [reflexivity | apply len_select_le |].
  intros r [Hr Hmask]%elem_of_select. split; [exact Hr | by intros _ _].
Qed.

Lemma date_stage to_datetime (range : option (option Timestamp * option Timestamp)) df :
  let out :=
    match range with
    | Some (start_date, end_date) =>
        if has_column df "Date" then
          let converted :=
            assign "Date"
              (DataCleaningAgentLLM.coerced
                 (DataCleaningAgentLLM.as_timestamp to_datetime) Ts "Date") df in
          match start_date, end_date with
          | Some s, Some e => select (DataSelectionAgent.in_date_range s e) converted
          | _, _ => converted
          end
        else df
    | None => df
    end in
  columns out = columns df /\ len out <= len df /\
  forall r : row, r ∈ rows out ->
    forall s e, range = Some (Some s, Some e) -> has_column df "Date" = true ->
                DataSelectionAgent.in_date_range s e r = true.
Proof.
  intros out. unfold out.
  destruct range as [[[s |] [e |]] |]; cbv zeta;
    destruct (has_column df "Date") eqn:Hdate;
    try (split_and!; [reflexivity | lia | intros; congruence]);
    try (split_and!; [by apply columns_assign_present | rewrite len_assign; lia |
                      intros; congruence]).
  split_and!.
  - cbn [columns select]. by apply columns_assign_present.
  - etransitivity; [apply len_select_le |]. rewrite len_assign. lia.
  - intros r [_ Hmask]%elem_of_select s' e' [= <- <-] _. exact Hmask.
Qed.

Lemma filter_rows_cases to_datetime df filters out msg :
  DataSelectionAgent.filter_rows to_datetime df filters = (out, msg) ->
  (msg = Some DataSelectionAgent.NoDataAfterFilters /\ out = df) \/
  (msg = None /\ rows out <> [] /\ columns out = columns df /\ len out <= len df /\
   forall r : row, r ∈ rows out ->
     (DataSelectionAgent.given (DataSelectionAgent.employee_type filters) = true ->
      has_column df "Employee Type" = true ->
      cell_isin (default [] (DataSelectionAgent.employee_type filters))
        (r !! "Employee Type") = true) /\
     (DataSelectionAgent.given (DataSelectionAgent.filled_status filters) = true ->
      has_column df "Filled" = true ->
      cell_isin (default [] (DataSelectionAgent.filled_status filters))
        (r !! "Filled") = true) /\
     (DataSelectionAgent.given (DataSelectionAgent.school_year filters) = true ->
      has_column df "School Year" = true ->
      cell_isin (default [] (DataSelectionAgent.school_year filters))
        (r !! "School Year") = true) /\
     (forall s e,
        DataSelectionAgent.date_range filters = Some (Some s, Some e) ->
        has_column df "Date" = true ->
        DataSelectionAgent.in_date_range s e r = true)).
Proof.
  unfold DataSelectionAgent.filter_rows. cbv zeta.
  match goal with
  | |- context [has_column ?f "Employee Type"] => set (f1 := f)
  end.
  match goal with
  | |- context [has_column ?f "Filled"] => set (f2 := f)
  end.
  match goal with
  | |- context [has_column ?f "School Year"] => set (f3 := f)
  end.
  match goal with
  | |- context [DataSelectionAgent.empty ?f] => set (f4 := f)
  end.
  pose proof (date_stage to_datetime (DataSelectionAgent.date_range filters) df) as H1.
  cbv zeta in H1. fold f1 in H1. destruct H1 as (Hc1 & Hl1 & Hr1).
  pose proof (isin_stage (DataSelectionAgent.employee_type filters) "Employee Type" f1)
    as H2.
  cbv zeta in H2. fold f2 in H2. destruct H2 as (Hc2 & Hl2 & Hr2).
  pose proof (isin_stage (DataSelectionAgent.filled_status filters) "Filled" f2) as H3.
  cbv zeta in H3. fold f3 in H3. destruct H3 as (Hc3 & Hl3 & Hr3).
  pose proof (isin_stage (DataSelectionAgent.school_year filters) "School Year" f3) as H4.
  cbv zeta in H4. fold f4 in H4. destruct H4 as (Hc4 & Hl4 & Hr4).
  destruct (DataSelectionAgent.empty f4) eqn:Hempty; intros [= <- <-]; [by left | right].
  assert (Hcol : forall col, has_column df col = true ->
            has_column f1 col = true /\ has_column f2 col = true /\
            has_column f3 col = true).
  { intros col H. unfold has_column. by rewrite Hc3, Hc2, Hc1. }
  split_and!; [reflexivity | | congruence | lia |].
  - unfold DataSelectionAgent.empty in Hempty.
    apply orb_false_iff in Hempty as [Hrows _].
    intros E. rewrite E in Hrows. discriminate.
  - intros r Hr.
    apply Hr4 in Hr as [Hr G4]. apply Hr3 in Hr as [Hr G3]. apply Hr2 in Hr as [Hr G2].
    split_and!.
    + intros Hg Hc. apply G2; [exact Hg | by apply Hcol].
    + intros Hg Hc. apply G3; [exact Hg | by apply Hcol].
    + intros Hg Hc. apply G4; [exact Hg | by apply Hcol].
    + intros s e. by apply Hr1.
Qed.



Lemma filter_rows_outcome to_datetime df filters out msg :
  DataSelectionAgent.filter_rows to_datetime df filters = (out, msg) ->
  (msg = Some DataSelectionAgent.NoDataAfterFilters /\ out = df) \/
  (msg = None /\ rows out <> [] /\ columns out = columns df /\ len out <= len df).
Proof.
  intros [? | (? & ? & ? & ? & _)]%filter_rows_cases; [by left | by right].
Qed.


(** [process] selects the columns first and filters the rows of what was
    selected.  When it reports nothing, the table has the selected columns
    and at least one row; when the columns could not be selected, the input
    comes back as it was; when no row passes the filters, what comes back
    is the table with the selected columns and all its rows. *)
Theorem selection_process_outcome to_datetime df (selected : list string) filters
    out msg :
  DataSelectionAgent.process to_datetime df selected filters = (out, msg) ->
  match msg with
  | None =>
      columns out = DataSelectionAgent.unique [] selected /\
      rows out <> [] /\ len out <= len df
  | Some DataSelectionAgent.NoDataAfterFilters =>
      DataSelectionAgent.select_columns df selected = (out, None) /\
      len out = len df
  | Some _ => out = df
  end.
Proof.
  unfold DataSelectionAgent.process. cbv zeta.
  destruct (DataSelectionAgent.select_columns df selected) as [projected error] eqn:Hsel.
  cbn [fst snd].
  assert (Herror : forall m, error = Some m ->
            projected = df /\ m <> DataSelectionAgent.NoDataAfterFilters).
  { intros m ->. unfold DataSelectionAgent.select_columns in Hsel. cbv zeta in Hsel.
    destruct (DataSelectionAgent.truthy _); [by injection Hsel as <- <- |].
    destruct (DataSelectionAgent.empty _); [by injection Hsel as <- <- | discriminate]. }
  destruct error as [m |].
  - intros [= <- <-]. destruct (Herror m eq_refl) as [-> Hm]. by destruct m.
  - clear Herror.
    pose proof (select_columns_projects_rows df selected projected Hsel)
      as (Hcols & Hlen & Hrows).
    destruct filters as [f |].
    + intros Hf.
      destruct (filter_rows_outcome to_datetime projected f out msg Hf)
        as [[-> ->] | (-> & Hne & Hc & Hl)].
      * split; [reflexivity | exact Hlen].
      * split_and!; [congruence | exact Hne | lia].
    + intros [= <- <-]. split_and!; [exact Hcols | exact Hrows | lia].
Qed.

Lemma selection_process_outcome_witness :
  DataSelectionAgent.select_columns Samples.absences ["Employee Type"; "Date"] =
    (fst (DataSelectionAgent.process Examples.parse_no_date Samples.absences
            ["Employee Type"; "Date"] (Some Samples.nobody_filter)), None) /\
  len (fst (DataSelectionAgent.process Examples.parse_no_date Samples.absences
              ["Employee Type"; "Date"] (Some Samples.nobody_filter))) =
    len Samples.absences.
Proof.
  apply (selection_process_outcome Examples.parse_no_date Samples.absences
           ["Employee Type"; "Date"] (Some Samples.nobody_filter)
           (fst (DataSelectionAgent.process Examples.parse_no_date Samples.absences
                   ["Employee Type"; "Date"] (Some Samples.nobody_filter)))
           (Some DataSelectionAgent.NoDataAfterFilters)).
  vm_compute. reflexivity.
Defined.
